(** * thisless: classes as blank objects

    A shallow embedding of [index.js] (isUndefined, isPlainObject,
    NATIVE_PROPS_NON_ENUMERABLE, getOwnPrototypeNames, toBlankObj, thisless,
    selfless) and of [statetree.js] (hackObjectTypePrototype) over a small
    model of the JavaScript object heap.

    Modelling conventions.
    - Values are the JavaScript primitives the library can meet plus object
      references; symbols and bigints are left out, numbers carry an integer
      payload (the library never computes with them) and strings are
      sequences of 8-bit code units.
    - An object is a prototype link, an extensibility flag, a finite map from
      string keys to complete property descriptors and a [[Call]] behaviour.
      Only ordinary objects are modelled (no proxies, no array exotics);
      symbol-keyed properties do not appear because every operation of the
      library goes through string keys.  The map keeps no insertion order:
      Object.getOwnPropertyNames lists the keys in the map's order, and
      nothing the library does depends on it.
    - The descriptor object returned by Object.getOwnPropertyDescriptor is a
      record; the built-ins the source calls (Object.create,
      Array.prototype.filter, ...) are the unpatched intrinsics.
    - Code runs in a state and error monad over the heap. User code (the
      provider passed to selfless, getters, the original mobx-state-tree entry
      points) is a host function on heaps; every entry into it is appended
      to a trace. *)

From Stdlib Require Import ZArith.
From stdpp Require Import gmap strings list fin_maps pretty.

Open Scope string_scope.

(** ** The object heap *)

Module JS.

Definition loc := nat.

Inductive jsval :=
| VUndefined
| VNull
| VBool (b : bool)
| VNum (n : Z)
| VStr (s : string)
| VObj (l : loc).

#[global] Instance jsval_eq_dec : EqDecision jsval.
Proof. solve_decision. Defined.

(** [a === b] *)
Definition strict_eq (a b : jsval) : bool := bool_decide (a = b).

(** A complete property descriptor: a data property or an accessor pair. *)
Inductive descriptor :=
| DData (v : jsval) (writable enumerable configurable : bool)
| DAccessor (getter setter : jsval) (enumerable configurable : bool).

#[global] Instance descriptor_eq_dec : EqDecision descriptor.
Proof. solve_decision. Defined.

Definition desc_value (d : descriptor) : option jsval :=
  match d with DData v _ _ _ => Some v | DAccessor _ _ _ _ => None end.
Definition desc_writable (d : descriptor) : option bool :=
  match d with DData _ w _ _ => Some w | DAccessor _ _ _ _ => None end.
Definition desc_get (d : descriptor) : option jsval :=
  match d with DData _ _ _ _ => None | DAccessor g _ _ _ => Some g end.
Definition desc_set (d : descriptor) : option jsval :=
  match d with DData _ _ _ _ => None | DAccessor _ s _ _ => Some s end.
Definition desc_enumerable (d : descriptor) : bool :=
  match d with DData _ _ e _ | DAccessor _ _ e _ => e end.
Definition desc_configurable (d : descriptor) : bool :=
  match d with DData _ _ _ c | DAccessor _ _ _ c => c end.

(** [descriptor.enumerable = e] on a descriptor record. *)
Definition set_enumerable (e : bool) (d : descriptor) : descriptor :=
  match d with
  | DData v w _ c => DData v w e c
  | DAccessor g s _ c => DAccessor g s e c
  end.

(** The [[Call]] behaviour of an object.  Functions written by users are
    named by an identifier that the host resolves; the function objects the
    library itself creates carry the variables they close over. *)
Inductive behaviour :=
| NotCallable
| UserCode (id : nat) (constructor : bool)
| SelflessCurry (fn : jsval)        (* function selflessCurry($$self) *)
| ActionsWrapper (actions : jsval)  (* ObjectTypeProto.actions = function(actionArgs) *)
| ViewsWrapper (views : jsval)      (* ObjectTypeProto.views = function(viewArgs) *)
| CreateStore.                      (* ObjectTypeProto.createStore = function(data) *)

Record object := Object {
  obj_proto : option loc;
  obj_extensible : bool;
  obj_props : gmap string descriptor;
  obj_code : behaviour
}.

(** One entry into user code. *)
Inductive event :=
| EvCall (callee : loc) (this : jsval) (args : list jsval)
| EvNew (callee : loc) (args : list jsval).

Record state := State {
  st_heap : gmap loc object;
  st_trace : list event
}.

Definition set_heap (h : gmap loc object) (s : state) : state :=
  State h (st_trace s).
Definition log (e : event) (s : state) : state :=
  State (st_heap s) (st_trace s ++ [e]).

(** The intrinsic prototypes of the realm. *)
Definition ObjectPrototype : loc := 0.
Definition FunctionPrototype : loc := 1.
Definition BooleanPrototype : loc := 2.
Definition NumberPrototype : loc := 3.
Definition StringPrototype : loc := 4.

Inductive exn :=
| TypeError
| Thrown (v : jsval).

(** How a computation ends: with a value, with a throw, without ending (user
    code that loops, a call nesting deeper than the fuel, a cyclic prototype
    chain), or on a dangling reference, which no JavaScript state contains. *)
Inductive outcome (A : Type) :=
| Normal (a : A) (s : state)
| Abrupt (e : exn) (s : state)
| Diverge
| Stuck.
Arguments Normal {A} a s.
Arguments Abrupt {A} e s.
Arguments Diverge {A}.
Arguments Stuck {A}.

Definition M (A : Type) : Type := state -> outcome A.

Definition ret {A} (a : A) : M A := fun s => Normal a s.
Definition throw {A} (e : exn) : M A := fun s => Abrupt e s.
Definition bind {A B} (m : M A) (k : A -> M B) : M B := fun s =>
  match m s with
  | Normal a s' => k a s'
  | Abrupt e s' => Abrupt e s'
  | Diverge => Diverge
  | Stuck => Stuck
  end.

Notation "'let*' x ':=' m 'in' k" := (bind m (fun x => k))
  (at level 10, x name, m at level 100, k at level 200).

(** [array.forEach(f)] on an array held as a list. *)
Fixpoint forEach {A B} (l : list A) (f : A -> M B) : M unit :=
  match l with
  | [] => ret tt
  | x :: l' => let* _ := f x in forEach l' f
  end.

Definition lookup_object (l : loc) : M object := fun s =>
  match st_heap s !! l with
  | Some o => Normal o s
  | None => Stuck
  end.

Definition store_object (l : loc) (o : object) : M unit := fun s =>
  Normal tt (set_heap (<[l := o]> (st_heap s)) s).

Definition fresh_loc (h : gmap loc object) : loc := fresh (dom h).

Definition alloc (o : object) : M loc := fun s =>
  let l := fresh_loc (st_heap s) in
  Normal l (set_heap (<[l := o]> (st_heap s)) s).

(** [typeof v] *)
Definition typeof (v : jsval) : M string :=
  match v with
  | VUndefined => ret "undefined"
  | VNull => ret "object"
  | VBool _ => ret "boolean"
  | VNum _ => ret "number"
  | VStr _ => ret "string"
  | VObj l =>
      let* o := lookup_object l in
      match obj_code o with
      | NotCallable => ret "object"
      | _ => ret "function"
      end
  end.

(** The own properties of the string exotic object that wraps [s]: one
    read-only enumerable property per index and a hidden [length]. *)
Fixpoint string_index_props (i : nat) (s : string) : gmap string descriptor :=
  match s with
  | EmptyString => ∅
  | String c r =>
      <[pretty i := DData (VStr (String c EmptyString)) false true false]>
        (string_index_props (S i) r)
  end.

Definition string_own_props (s : string) : gmap string descriptor :=
  <["length" := DData (VNum (Z.of_nat (String.length s))) false false false]>
    (string_index_props 0 s).

(** The own properties of [ToObject(v)]. *)
Definition own_properties (v : jsval) : M (gmap string descriptor) :=
  match v with
  | VUndefined | VNull => throw TypeError
  | VBool _ | VNum _ => ret ∅
  | VStr s => ret (string_own_props s)
  | VObj l => let* o := lookup_object l in ret (obj_props o)
  end.

(** [Object.getOwnPropertyNames(v)] *)
Definition Object_getOwnPropertyNames (v : jsval) : M (list string) :=
  let* props := own_properties v in
  ret (map_to_list props).*1.

(** [Object.getOwnPropertyDescriptor(v, key)]; [None] is [undefined]. *)
Definition Object_getOwnPropertyDescriptor (v : jsval) (key : string)
  : M (option descriptor) :=
  let* props := own_properties v in
  ret (props !! key).

(** [Object.getPrototypeOf(v)] *)
Definition Object_getPrototypeOf (v : jsval) : M jsval :=
  match v with
  | VUndefined | VNull => throw TypeError
  | VBool _ => ret (VObj BooleanPrototype)
  | VNum _ => ret (VObj NumberPrototype)
  | VStr _ => ret (VObj StringPrototype)
  | VObj l =>
      let* o := lookup_object l in
      ret (match obj_proto o with Some p => VObj p | None => VNull end)
  end.

Definition ordinary (proto : option loc) (props : gmap string descriptor)
  : object :=
  Object proto true props NotCallable.

(** [Object.create(proto)] *)
Definition Object_create (proto : jsval) : M jsval :=
  match proto with
  | VNull => let* l := alloc (ordinary None ∅) in ret (VObj l)
  | VObj p => let* l := alloc (ordinary (Some p) ∅) in ret (VObj l)
  | _ => throw TypeError
  end.

(** ValidateAndApplyPropertyDescriptor for a complete descriptor [d] against
    the current own property [cur]: may the property be (re)defined? *)
Definition define_allowed (extensible : bool) (cur : option descriptor)
    (d : descriptor) : bool :=
  match cur with
  | None => extensible
  | Some c =>
      if desc_configurable c then true
      else if desc_configurable d then false
      else if negb (eqb (desc_enumerable d) (desc_enumerable c)) then false
      else
        match c, d with
        | DData cv cw _ _, DData dv dw _ _ =>
            if cw then true
            else if dw then false else strict_eq dv cv
        | DAccessor cg cs _ _, DAccessor dg ds _ _ =>
            strict_eq dg cg && strict_eq ds cs
        | _, _ => false
        end
  end.

(** [Object.defineProperty(o, key, d)] *)
Definition Object_defineProperty (o : jsval) (key : string) (d : descriptor)
  : M jsval :=
  match o with
  | VObj l =>
      let* ob := lookup_object l in
      if define_allowed (obj_extensible ob) (obj_props ob !! key) d then
        let* _ := store_object l
          (Object (obj_proto ob) (obj_extensible ob)
                  (<[key := d]> (obj_props ob)) (obj_code ob)) in
        ret o
      else throw TypeError
  | _ => throw TypeError
  end.

(** A lookup along the prototype chain.  A chain of distinct objects is no
    longer than the heap, so running out of fuel means the chain is cyclic. *)
Inductive found :=
| Found (d : descriptor)
| NotFound
| Cyclic
| Dangling.

Fixpoint find_from (fuel : nat) (h : gmap loc object) (l : loc) (key : string)
  : found :=
  match fuel with
  | O => Cyclic
  | S fuel' =>
      match h !! l with
      | None => Dangling
      | Some o =>
          match obj_props o !! key with
          | Some d => Found d
          | None =>
              match obj_proto o with
              | None => NotFound
              | Some p => find_from fuel' h p key
              end
          end
      end
  end.

Definition find_in_chain (h : gmap loc object) (l : loc) (key : string)
  : found :=
  find_from (S (size h)) h l key.

(** The property [key] as seen from the value [v] (own properties first,
    then the chain of [ToObject(v)]). *)
Definition find_property (h : gmap loc object) (v : jsval) (key : string)
  : found :=
  match v with
  | VObj l => find_in_chain h l key
  | VStr s =>
      match string_own_props s !! key with
      | Some d => Found d
      | None => find_in_chain h StringPrototype key
      end
  | VNum _ => find_in_chain h NumberPrototype key
  | VBool _ => find_in_chain h BooleanPrototype key
  | VUndefined | VNull => NotFound
  end.

(** [key in v] *)
Definition has_property (key : string) (v : jsval) : M bool :=
  match v with
  | VObj l => fun s =>
      match find_in_chain (st_heap s) l key with
      | Found _ => Normal true s
      | NotFound => Normal false s
      | Cyclic => Diverge
      | Dangling => Stuck
      end
  | _ => throw TypeError
  end.

Definition arg (i : nat) (args : list jsval) : jsval := nth i args VUndefined.

Definition with_props (o : object) (props : gmap string descriptor) : object :=
  Object (obj_proto o) (obj_extensible o) props (obj_code o).

(** Evaluating a [function] expression: the function object with its
    [length] and [name], and the [prototype] object every constructor gets. *)
Definition make_function (code : behaviour) (name : string) (length : nat)
  : M jsval :=
  let* f := alloc (Object (Some FunctionPrototype) true
      (<["length" := DData (VNum (Z.of_nat length)) false false true]>
         {["name" := DData (VStr name) false false true]}) code) in
  let* p := alloc (ordinary (Some ObjectPrototype)
      {["constructor" := DData (VObj f) true false true]}) in
  let* _ := Object_defineProperty (VObj f) "prototype"
      (DData (VObj p) true false false) in
  ret (VObj f).

(** The part of the semantics that enters functions, over the engine's
    [[Call]]: [invoke f this args]. *)
Section Interp.

Variable invoke : jsval -> jsval -> list jsval -> M jsval.

(** [v.key] *)
Definition get (v : jsval) (key : string) : M jsval :=
  match v with
  | VUndefined | VNull => throw TypeError
  | _ => fun s =>
      match find_property (st_heap s) v key with
      | Found (DData x _ _ _) => Normal x s
      | Found (DAccessor VUndefined _ _ _) => Normal VUndefined s
      | Found (DAccessor g _ _ _) => invoke g v [] s
      | NotFound => Normal VUndefined s
      | Cyclic => Diverge
      | Dangling => Stuck
      end
  end.

Definition call_setter (setter receiver v : jsval) : M unit :=
  match setter with
  | VUndefined => ret tt
  | _ => let* _ := invoke setter receiver [v] in ret tt
  end.

Definition create_data_property (l : loc) (o : object) (key : string)
    (v : jsval) : M unit :=
  if obj_extensible o
  then store_object l (with_props o (<[key := DData v true true true]> (obj_props o)))
  else ret tt.

(** [o.key = v] in non-strict code: an assignment that the object refuses
    is dropped silently. *)
Definition set (o : jsval) (key : string) (v : jsval) : M unit :=
  match o with
  | VUndefined | VNull => throw TypeError
  | VObj l =>
      let* ob := lookup_object l in
      match obj_props ob !! key with
      | Some (DData _ w e c) =>
          if w then store_object l (with_props ob (<[key := DData v w e c]> (obj_props ob)))
          else ret tt
      | Some (DAccessor _ setter _ _) => call_setter setter o v
      | None =>
          match obj_proto ob with
          | None => create_data_property l ob key v
          | Some p => fun s =>
              match find_in_chain (st_heap s) p key with
              | Found (DData _ w _ _) =>
                  if w then create_data_property l ob key v s else Normal tt s
              | Found (DAccessor _ setter _ _) => call_setter setter o v s
              | NotFound => create_data_property l ob key v s
              | Cyclic => Diverge
              | Dangling => Stuck
              end
          end
      end
  | _ => fun s =>
      match find_property (st_heap s) o key with
      | Found (DAccessor _ setter _ _) => call_setter setter o v s
      | Found (DData _ _ _ _) | NotFound => Normal tt s
      | Cyclic => Diverge
      | Dangling => Stuck
      end
  end.

End Interp.

End JS.

Import JS.

(** ** index.js *)

Module Thisless.

(** [const isUndefined = x => x === undefined] *)
Definition isUndefined (x : jsval) : bool := strict_eq x VUndefined.

(** [function isPlainObject(value)] *)
Definition isPlainObject (value : jsval) : M bool :=
  if strict_eq value VNull then ret false
  else
    let* t := typeof value in
    if negb (String.eqb t "object") then ret false
    else
      let* proto := Object_getPrototypeOf value in
      ret (strict_eq proto (VObj ObjectPrototype) || strict_eq proto VNull).

Definition NATIVE_PROPS_NON_ENUMERABLE : list string :=
  [ "__defineGetter__";
    "__defineSetter__";
    "__proto__";
    "__lookupGetter__";
    "__lookupSetter__";
    "hasOwnProperty";
    "propertyIsEnumerable";
    "toLocaleString";
    "isPrototypeOf";
    "toString";
    "constructor";
    "prototype";
    "valueOf";
    "arguments";
    "caller";
    "callee" ].

(** [array.includes(x)] on an array of strings. *)
Definition includes (l : list string) (x : string) : bool :=
  existsb (String.eqb x) l.

(** [const nameIsNotNative = name => !NATIVE_PROPS_NON_ENUMERABLE.includes(name)] *)
Definition nameIsNotNative (name : string) : bool :=
  negb (includes NATIVE_PROPS_NON_ENUMERABLE name).

(** [const getOwnPrototypeNames = obj =>
      Object.getOwnPropertyNames(obj).filter(nameIsNotNative)] *)
Definition getOwnPrototypeNames (obj : jsval) : M (list string) :=
  let* names := Object_getOwnPropertyNames obj in
  ret (List.filter nameIsNotNative names).

(** [function toBlankObj(obj)] *)
Definition toBlankObj (obj : jsval) : M jsval :=
  let* blankObj := Object_create VNull in
  let* names := getOwnPrototypeNames obj in
  let* _ := forEach names (fun key =>
    let* descriptor := Object_getOwnPropertyDescriptor obj key in
    match descriptor with
    | None => throw TypeError
    | Some descriptor =>
        Object_defineProperty blankObj key (set_enumerable true descriptor)
    end) in
  ret blankObj.

Section Calls.

Variable invoke : jsval -> jsval -> list jsval -> M jsval.

(** [function thisless(_class)] *)
Definition thisless (_class : jsval) : M jsval :=
  let* plain := isPlainObject _class in
  if negb plain then
    let* proto := get invoke _class "prototype" in
    toBlankObj proto
  else ret _class.

(** The body of [function selflessCurry($$self)], closed over [fn]. *)
Definition selflessCurry (fn : jsval) (args : list jsval) : M jsval :=
  let self := arg 0 args in
  let* _class := invoke fn VUndefined [self] in
  thisless _class.

(** [function selfless(fn, $self)], called with the argument list [args]. *)
Definition selfless (args : list jsval) : M jsval :=
  let fn := arg 0 args in
  let self := arg 1 args in
  if (List.length args =? 1)%nat then
    make_function (SelflessCurry fn) "selflessCurry" 1
  else
    let* _class := invoke fn VUndefined [self] in
    thisless _class.

End Calls.

End Thisless.

Import Thisless.

(** ** statetree.js *)

Module StateTree.

Section Calls.

Variable invoke : jsval -> jsval -> list jsval -> M jsval.

(** [function(actionArgs) { ... return actions.call(this, selflessActions) }] *)
Definition actionsWrapper (actions this : jsval) (args : list jsval)
  : M jsval :=
  let actionArgs := arg 0 args in
  let* selflessActions := selfless invoke [actionArgs] in
  invoke actions this [selflessActions].

(** [function(viewArgs) { ... return views.call(this, selflessViews) }] *)
Definition viewsWrapper (views this : jsval) (args : list jsval) : M jsval :=
  let viewArgs := arg 0 args in
  let* selflessViews := selfless invoke [viewArgs] in
  invoke views this [selflessViews].

(** [function(data = undefined) { ... return { model, state, store } }] *)
Definition createStore (this : jsval) (args : list jsval) : M jsval :=
  let data := arg 0 args in
  let model := this in
  let* state :=
    if isUndefined data then
      let* create := get invoke this "create" in invoke create this []
    else
      let* create := get invoke this "create" in invoke create this [data] in
  let store := state in
  let* r := alloc (ordinary (Some ObjectPrototype)
      (<["model" := DData model true true true]>
      (<["state" := DData state true true true]>
         {["store" := DData store true true true]}))) in
  ret (VObj r).

(** [function hackObjectTypePrototype(x)] *)
Definition hackObjectTypePrototype (x : jsval) : M jsval :=
  let* patched := has_property "createStore" x in
  if patched then ret VUndefined
  else
    let* ObjectTypeProto := Object_getPrototypeOf x in
    let* actions := get invoke ObjectTypeProto "actions" in
    let* views := get invoke ObjectTypeProto "views" in
    let* f := make_function (ActionsWrapper actions) "" 1 in
    let* _ := set invoke ObjectTypeProto "actions" f in
    let* f := make_function (ViewsWrapper views) "" 1 in
    let* _ := set invoke ObjectTypeProto "views" f in
    let* f := make_function CreateStore "" 0 in
    let* _ := set invoke ObjectTypeProto "createStore" f in
    ret VUndefined.

End Calls.

End StateTree.

Import StateTree.

(** ** The engine's [[Call]] and [[Construct]] *)

(** What a run of user code does to the heap. *)
Inductive host_result :=
| HReturn (v : jsval) (h : gmap loc object)
| HThrow (e : exn) (h : gmap loc object)
| HDiverge.

(** The user code of a program: what the function named [id] does when it is
    called, and when it is constructed with [new]. *)
Record host := Host {
  host_call : nat -> jsval -> list jsval -> gmap loc object -> host_result;
  host_new : nat -> list jsval -> gmap loc object -> host_result
}.

Definition run_host (r : host_result) (s : state) : outcome jsval :=
  match r with
  | HReturn v h => Normal v (set_heap h s)
  | HThrow e h => Abrupt e (set_heap h s)
  | HDiverge => Diverge
  end.

Section Engine.

Variable H : host.

(** [f.call(this, ...args)], at most [fuel] frames deep. *)
Fixpoint call (fuel : nat) (f this : jsval) (args : list jsval) : M jsval :=
  match fuel with
  | O => fun _ => Diverge
  | S fuel' =>
      match f with
      | VObj l =>
          let* o := lookup_object l in
          match obj_code o with
          | NotCallable => throw TypeError
          | UserCode id _ => fun s =>
              let s' := log (EvCall l this args) s in
              run_host (host_call H id this args (st_heap s')) s'
          | SelflessCurry fn => selflessCurry (call fuel') fn args
          | ActionsWrapper actions => actionsWrapper (call fuel') actions this args
          | ViewsWrapper views => viewsWrapper (call fuel') views this args
          | CreateStore => createStore (call fuel') this args
          end
      | _ => throw TypeError
      end
  end.

(** [new F(...args)] *)
Definition construct (fuel : nat) (F : jsval) (args : list jsval) : M jsval :=
  match F with
  | VObj l =>
      let* o := lookup_object l in
      match obj_code o with
      | NotCallable | UserCode _ false => throw TypeError
      | UserCode id true => fun s =>
          let s' := log (EvNew l args) s in
          run_host (host_new H id args (st_heap s')) s'
      | _ =>
          let* proto := get (call fuel) F "prototype" in
          let* obj := Object_create
            (match proto with VObj _ => proto | _ => VObj ObjectPrototype end) in
          let* r := call fuel F obj args in
          ret (match r with VObj _ => r | _ => obj end)
      end
  | _ => throw TypeError
  end.

End Engine.

(** ** Vocabulary of the specification *)

(** The trace at the end of a run that ends. *)
Definition outcome_trace {A} (o : outcome A) : option (list event) :=
  match o with
  | Normal _ s | Abrupt _ s => Some (st_trace s)
  | Diverge | Stuck => None
  end.

(** The prototype and the behaviour of the object a value refers to. *)
Definition proto_of (s : state) (v : jsval) : option (option loc) :=
  match v with
  | VObj l => obj_proto <$> st_heap s !! l
  | _ => None
  end.

Definition code_of (s : state) (v : jsval) : option behaviour :=
  match v with
  | VObj l => obj_code <$> st_heap s !! l
  | _ => None
  end.

(** The shape of a descriptor: which kind it is and its flags, without the
    identity of the value or of the accessor functions. *)
Inductive shape :=
| DataShape (writable enumerable configurable : bool)
| AccessorShape (enumerable configurable : bool).

Definition desc_shape (d : descriptor) : shape :=
  match d with
  | DData _ w e c => DataShape w e c
  | DAccessor _ _ e c => AccessorShape e c
  end.

(** The own enumerable keys of the object [v] refers to, with the shape of
    each. *)
Definition enumerable_shapes (s : state) (v : jsval)
  : option (gmap string shape) :=
  match v with
  | VObj l =>
      (fun o => desc_shape <$>
                  filter (fun kd => desc_enumerable kd.2 = true) (obj_props o))
      <$> st_heap s !! l
  | _ => None
  end.

(** Two runs are structurally equivalent when they end the same way and, if
    they return, return objects with the same own enumerable keys and the
    same descriptor shapes. *)
Definition equivalent (o1 o2 : outcome jsval) : Prop :=
  match o1, o2 with
  | Normal v1 s1, Normal v2 s2 =>
      enumerable_shapes s1 v1 = enumerable_shapes s2 v2
  | Abrupt e1 _, Abrupt e2 _ => e1 = e2
  | Diverge, Diverge => True
  | Stuck, Stuck => True
  | _, _ => False
  end.

(** A plain record: an object that is not a function and whose prototype is
    Object.prototype or null. *)
Definition plain_record (h : gmap loc object) (v : jsval) : Prop :=
  exists l o, v = VObj l /\ h !! l = Some o /\ obj_code o = NotCallable
    /\ (obj_proto o = Some ObjectPrototype \/ obj_proto o = None).

(** Reading [v.key] runs no getter: the property is a data property, is
    absent, or is an accessor without a getter.  Every class and every
    [function] holds [prototype] as an own data property. *)
Definition reads_plainly (h : gmap loc object) (v : jsval) (key : string)
  : Prop :=
  forall g st e c, find_property h v key = Found (DAccessor g st e c) ->
                   g = VUndefined.

(** Two heaps agree on [key] when every object of the first is in the
    second with the same prototype and the same own property [key]. *)
Definition agree_on (key : string) (h h' : gmap loc object) : Prop :=
  forall l o, h !! l = Some o ->
    exists o', h' !! l = Some o' /\ obj_proto o' = obj_proto o
               /\ obj_props o' !! key = obj_props o !! key.

(** ** A small program to run the library on

    The class of the test suite (a getter [aboot], a method [moose], and a
    [toString] of its own), a provider returning it, a provider that throws,
    a context record, and a model builder in the manner of mobx-state-tree
    whose prototype holds [actions] and [views]. *)

Module Example.

Definition function_object (id : nat) (constructor : bool)
    (props : gmap string descriptor) : object :=
  Object (Some FunctionPrototype) true props (UserCode id constructor).

(* the prototype of class ThisLessEd { get aboot() moose() toString() } *)
Definition class_prototype : object :=
  ordinary (Some ObjectPrototype)
    (<["constructor" := DData (VObj 10) true false true]>
    (<["aboot" := DAccessor (VObj 12) VUndefined false true]>
    (<["moose" := DData (VObj 13) true false true]>
       {["toString" := DData (VObj 5) true false true]}))).

(* var $selfthis = { igloo: 'igloomoose' } *)
Definition context : object :=
  ordinary (Some ObjectPrototype)
    {["igloo" := DData (VStr "igloomoose") true true true]}.

Definition heap : gmap loc object :=
  list_to_map
    [ (ObjectPrototype,
        ordinary None {["toString" := DData (VObj 5) true false true]});
      (FunctionPrototype, ordinary (Some ObjectPrototype) ∅);
      (BooleanPrototype, ordinary (Some ObjectPrototype) ∅);
      (NumberPrototype, ordinary (Some ObjectPrototype) ∅);
      (StringPrototype, ordinary (Some ObjectPrototype) ∅);
      (5, function_object 0 false ∅);
      (10, function_object 1 true
             {["prototype" := DData (VObj 11) false false false]});
      (11, class_prototype);
      (12, function_object 2 false ∅);
      (13, function_object 3 false ∅);
      (* const getSelflessed = self => class {..} *)
      (14, function_object 4 false ∅);
      (15, context);
      (* self => { throw 'boom' } *)
      (16, function_object 5 false ∅);
      (* ObjectType.prototype, its two entry points, and a model *)
      (20, ordinary (Some ObjectPrototype)
             (<["actions" := DData (VObj 21) true false true]>
                {["views" := DData (VObj 22) true false true]}));
      (21, function_object 6 false ∅);
      (22, function_object 7 false ∅);
      (23, ordinary (Some 20) ∅) ].

Definition user : host :=
  Host
    (fun id this args h =>
       match id with
       | 2 => HReturn (VNum 100) h
       | 4 => HReturn (VObj 10) h
       | 5 => HThrow (Thrown (VStr "boom")) h
       | 6 | 7 => HReturn this h
       | _ => HReturn VUndefined h
       end)
    (fun id args h =>
       HReturn (VObj (fresh_loc h))
         (<[fresh_loc h := ordinary (Some 11) ∅]> h)).

Definition start : state := State heap [].

End Example.

(** A value that cannot be called: a primitive, or an object without a
    [[Call]] behaviour. *)
Definition not_callable (s : state) (v : jsval) : Prop :=
  match v with
  | VObj _ => code_of s v = Some NotCallable
  | _ => True
  end.

(** A member as class syntax (and object-literal syntax) defines it:
    configurable, and writable when it is a method. *)
Definition class_member (d : descriptor) : Prop :=
  desc_configurable d = true /\ desc_writable d <> Some false.


(** ** More programs to run the library on

    A provider that returns a plain record (as getES6Obj does), a model
    builder with a [create] method, a model builder whose prototype has
    been made non-extensible, and a model that has a [createStore] of its
    own. *)

Module Scenario.

Definition builder_prototype (extensible : bool) : object :=
  Object (Some ObjectPrototype) extensible
    (<["actions" := DData (VObj 21) true false true]>
    (<["views" := DData (VObj 22) true false true]>
       {["create" := DData (VObj 30) true false true]}))
    NotCallable.

Definition heap : gmap loc object :=
  <[30 := Example.function_object 8 false ∅]>
    (<[20 := builder_prototype true]> Example.heap).

Definition sealed_heap : gmap loc object :=
  <[30 := Example.function_object 8 false ∅]>
    (<[20 := builder_prototype false]> Example.heap).

Definition user : host :=
  Host
    (fun id this args h =>
       match id with
       | 4 => HReturn (VObj 15) h
       | 8 => HReturn (VObj 15) h
       | _ => host_call Example.user id this args h
       end)
    (host_new Example.user).

Definition claimed_heap : gmap loc object :=
  <[23 := ordinary (Some 20)
            {["createStore" := DData (VNum 0) true true true]}]> Example.heap.

Definition start : state := State heap [].
Definition sealed : state := State sealed_heap [].
Definition claimed : state := State claimed_heap [].

End Scenario.

(** ** Reasoning about the monad and the heap *)

Lemma bind_Normal {A B} (m : M A) (k : A -> M B) s a s' :
  m s = Normal a s' -> bind m k s = k a s'.
Proof. unfold bind. by intros ->. Qed.

Lemma bind_Abrupt {A B} (m : M A) (k : A -> M B) s e s' :
  m s = Abrupt e s' -> bind m k s = Abrupt e s'.
Proof. unfold bind. by intros ->. Qed.

Lemma bind_Diverge {A B} (m : M A) (k : A -> M B) s :
  m s = Diverge -> bind m k s = Diverge.
Proof. unfold bind. by intros ->. Qed.

Lemma bind_Stuck {A B} (m : M A) (k : A -> M B) s :
  m s = Stuck -> bind m k s = Stuck.
Proof. unfold bind. by intros ->. Qed.

(** Run the first computation of a [let*] whose outcome is known. *)
Ltac mstep H :=
  first [ rewrite (bind_Normal _ _ _ _ _ H)
        | rewrite (bind_Abrupt _ _ _ _ _ H)
        | rewrite (bind_Diverge _ _ _ H)
        | rewrite (bind_Stuck _ _ _ H) ].

Lemma fresh_loc_None (h : gmap loc object) : h !! fresh_loc h = None.
Proof. unfold fresh_loc. apply (not_elem_of_dom (D := gset loc)). apply is_fresh. Qed.

Lemma fresh_loc_ne (h : gmap loc object) l o : h !! l = Some o -> l <> fresh_loc h.
Proof. intros Hl ->. by rewrite fresh_loc_None in Hl. Qed.

Lemma nameIsNotNative_iff name :
  nameIsNotNative name = true <-> ~ In name NATIVE_PROPS_NON_ENUMERABLE.
Proof.
  unfold nameIsNotNative, includes. rewrite negb_true_iff.
  rewrite <- not_true_iff_false, existsb_exists. split.
  - intros Hn Hin. apply Hn. exists name. split; [done|]. by apply String.eqb_eq.
  - intros Hn (x & Hin & Heq). apply String.eqb_eq in Heq. by subst.
Qed.

(** The loop of [toBlankObj], run on a blank object at [b] that is not the
    object being read. *)
Section Flatten.

Variables (obj : jsval) (props : gmap string descriptor).
Variables (b : loc) (h0 : gmap loc object) (tr : list event).

Let st (r : object) : state := State (<[b := r]> h0) tr.

Hypothesis read_obj : forall r, own_properties obj (st r) = Normal props (st r).

Lemma copy_property_step r key d :
  obj_extensible r = true ->
  obj_props r !! key = None ->
  props !! key = Some d ->
  (let* descriptor := Object_getOwnPropertyDescriptor obj key in
   match descriptor with
   | None => throw TypeError
   | Some descriptor =>
       Object_defineProperty (VObj b) key (set_enumerable true descriptor)
   end) (st r)
  = Normal (VObj b)
      (st (with_props r (<[key := set_enumerable true d]> (obj_props r)))).
Proof.
  intros Hext Hfree Hd.
  unfold Object_getOwnPropertyDescriptor, bind at 1 2. rewrite read_obj.
  unfold ret. rewrite Hd. unfold Object_defineProperty, bind, lookup_object.
  cbn [st st_heap]. rewrite lookup_insert_eq, Hfree. cbn [define_allowed].
  rewrite Hext. unfold store_object, ret, set_heap, st, with_props. cbn.
  by rewrite insert_insert_eq, Hext.
Qed.

Lemma forEach_copy keys :
  forall r,
    obj_extensible r = true ->
    NoDup keys ->
    (forall k, k ∈ keys -> obj_props r !! k = None /\ is_Some (props !! k)) ->
    exists r',
      forEach keys (fun key =>
        let* descriptor := Object_getOwnPropertyDescriptor obj key in
        match descriptor with
        | None => throw TypeError
        | Some descriptor =>
            Object_defineProperty (VObj b) key (set_enumerable true descriptor)
        end) (st r) = Normal tt (st r')
      /\ obj_proto r' = obj_proto r
      /\ obj_extensible r' = true
      /\ obj_code r' = obj_code r
      /\ forall k, obj_props r' !! k =
           if decide (k ∈ keys) then set_enumerable true <$> props !! k
           else obj_props r !! k.
Proof.
  induction keys as [|key keys IH]; intros r Hext Hnd Hkeys.
  - by exists r.
  - apply NoDup_cons in Hnd as [Hnotin Hnd].
    destruct (Hkeys key) as [Hfree [d Hd]]; [by left|].
    destruct (IH (with_props r (<[key := set_enumerable true d]> (obj_props r))))
      as (r' & Hrun & Hproto & Hext' & Hcode & Hlook); [done | done | |].
    { intros k Hk. destruct (Hkeys k) as [Hf Hs]; [by right|]. split; [|done].
      cbn. rewrite lookup_insert_ne; [done|]. by intros ->. }
    exists r'. split; [|repeat split; try done].
    + cbn [forEach]. unfold bind at 1.
      by rewrite (copy_property_step r key d Hext Hfree Hd).
    + intros k. rewrite Hlook. cbn.
      destruct (decide (k = key)) as [->|Hne].
      * rewrite decide_False by done. rewrite decide_True by (by left).
        by rewrite lookup_insert_eq, Hd.
      * rewrite lookup_insert_ne by done.
        destruct (decide (k ∈ keys)) as [Hin|Hout].
        -- by rewrite decide_True by (by right).
        -- rewrite decide_False; [done|].
           intros [?|?]%elem_of_cons; done.
Qed.

End Flatten.

(** Reading [obj] is not disturbed by what happens at a fresh location. *)
Lemma own_properties_fresh obj props s r tr :
  own_properties obj s = Normal props s ->
  own_properties obj (State (<[fresh_loc (st_heap s) := r]> (st_heap s)) tr)
  = Normal props (State (<[fresh_loc (st_heap s) := r]> (st_heap s)) tr).
Proof.
  destruct obj as [| | | | |l]; cbn; unfold throw, ret; try congruence.
  unfold bind, lookup_object. cbn.
  destruct (st_heap s !! l) as [o|] eqn:Hl; [|done].
  rewrite lookup_insert_ne by (symmetry; by eapply fresh_loc_ne).
  rewrite Hl. unfold ret. congruence.
Qed.

Lemma own_names_spec (props : gmap string descriptor) k :
  k ∈ List.filter nameIsNotNative (map_to_list props).*1
  <-> nameIsNotNative k = true /\ is_Some (props !! k).
Proof.
  rewrite list_elem_of_In, filter_In, <- list_elem_of_In.
  rewrite list_elem_of_fmap. split.
  - intros [([k' d] & -> & Hin%elem_of_map_to_list) Hn]. eauto.
  - intros [Hn [d Hd]]. split; [|done].
    exists (k, d). split; [done|]. by apply elem_of_map_to_list.
Qed.

(** [toBlankObj] returns on every value that has own properties to read:
    it allocates one object, at the first free location, and that object is
    the flattened copy. *)
Lemma toBlankObj_returns obj props s :
  own_properties obj s = Normal props s ->
  exists r,
    toBlankObj obj s
    = Normal (VObj (fresh_loc (st_heap s)))
        (set_heap (<[fresh_loc (st_heap s) := r]> (st_heap s)) s)
    /\ obj_proto r = None
    /\ obj_extensible r = true
    /\ obj_code r = NotCallable
    /\ forall k, obj_props r !! k =
         if nameIsNotNative k then set_enumerable true <$> props !! k else None.
Proof.
  intros Hread. set (b := fresh_loc (st_heap s)).
  assert (Hframe : forall r, own_properties obj
            (State (<[b := r]> (st_heap s)) (st_trace s))
          = Normal props (State (<[b := r]> (st_heap s)) (st_trace s))).
  { intros r. by apply own_properties_fresh. }
  destruct (forEach_copy obj props b (st_heap s) (st_trace s) Hframe
              (List.filter nameIsNotNative (map_to_list props).*1)
              (ordinary None ∅))
    as (r & Hrun & Hproto & Hext & Hcode & Hlook).
  - done.
  - apply NoDup_ListNoDup, List.NoDup_filter, NoDup_ListNoDup, NoDup_fst_map_to_list.
  - intros k [_ Hk]%own_names_spec. by split.
  - exists r. split; [|repeat split; try done].
    + unfold toBlankObj.
      rewrite (bind_Normal _ _ s (VObj b)
                 (State (<[b := ordinary None ∅]> (st_heap s)) (st_trace s)))
        by reflexivity.
      rewrite (bind_Normal _ _ _
                 (List.filter nameIsNotNative (map_to_list props).*1)
                 (State (<[b := ordinary None ∅]> (st_heap s)) (st_trace s))).
      * mstep Hrun; done.
      * unfold getOwnPrototypeNames, Object_getOwnPropertyNames.
        erewrite bind_Normal; [reflexivity|].
        erewrite bind_Normal; [reflexivity|]. apply Hframe.
    + intros k. rewrite Hlook. cbn.
      destruct (nameIsNotNative k) eqn:Hn.
      * case_decide as Hk; [done|].
        destruct (props !! k) as [d|] eqn:Hd; [|done].
        exfalso. apply Hk, own_names_spec. eauto.
      * case_decide as Hk; [|done].
        apply own_names_spec in Hk as [Hk _]. congruence.
Qed.

(** ** The test suite's scenarios, run on the model *)

(** [selfless(getSelflessed, $selfthis)]: the getter and the method of the
    class, both enumerable; [constructor] and [toString] are gone. *)
Example selfless_on_class :
  exists b s',
    selfless (call Example.user 1) [VObj 14; VObj 15] Example.start
    = Normal (VObj b) s'
    /\ (obj_props <$> st_heap s' !! b)
       = Some (<["aboot" := DAccessor (VObj 12) VUndefined true true]>
                 {["moose" := DData (VObj 13) true true true]})
    /\ proto_of s' (VObj b) = Some None.
Proof.
  eexists _, _. split; [vm_compute; reflexivity|].
  split; vm_compute; reflexivity.
Qed.

(** [selfless(getSelflessed)($selfthis)] gives an object with the same
    properties. *)
Example selfless_curried_on_class :
  exists g s_g b s',
    selfless (call Example.user 1) [VObj 14] Example.start = Normal (VObj g) s_g
    /\ call Example.user 2 (VObj g) VUndefined [VObj 15] s_g = Normal (VObj b) s'
    /\ (obj_props <$> st_heap s' !! b)
       = Some (<["aboot" := DAccessor (VObj 12) VUndefined true true]>
                 {["moose" := DData (VObj 13) true true true]}).
Proof.
  eexists _, _, _, _. split; [vm_compute; reflexivity|].
  split; vm_compute; reflexivity.
Qed.

(** [new blankObj()] throws. *)
Example new_on_blank_throws :
  exists blankObj s',
    thisless (call Example.user 1) (VObj 10) Example.start = Normal blankObj s'
    /\ construct Example.user 1 blankObj [] s' = Abrupt TypeError s'.
Proof. eexists _, _. split; [vm_compute; reflexivity|]. vm_compute. reflexivity. Qed.

(** [toBlankObj("ab")]: the characters and the length of the string. *)
Example toBlankObj_on_string :
  exists b s',
    toBlankObj (VStr "ab") Example.start = Normal (VObj b) s'
    /\ (obj_props <$> st_heap s' !! b)
       = Some (<["0" := DData (VStr "a") false true false]>
              (<["1" := DData (VStr "b") false true false]>
                 {["length" := DData (VNum 2) false true false]})).
Proof. eexists _, _. split; [vm_compute; reflexivity|]. vm_compute. reflexivity. Qed.

(** [thisless] on an instance, which has no [prototype]: a TypeError. *)
Example thisless_on_instance_throws :
  exists s',
    thisless (call Example.user 1) (VObj 23) Example.start
    = Abrupt TypeError s'.
Proof. eexists. vm_compute. reflexivity. Qed.

(** After the patch, [model.actions(provider)] enters the original
    [actions] once, handing it the curried binder. *)
Example patched_actions_call :
  exists s1 wrapper g,
    hackObjectTypePrototype (call Example.user 1) (VObj 23) Example.start
    = Normal VUndefined s1
    /\ get (call Example.user 1) (VObj 23) "actions" s1 = Normal (VObj wrapper) s1
    /\ code_of s1 (VObj wrapper) = Some (ActionsWrapper (VObj 21))
    /\ outcome_trace (call Example.user 2 (VObj wrapper) (VObj 23) [VObj 14] s1)
       = Some [EvCall 21 (VObj 23) [VObj g]].
Proof.
  eexists _, _, _.
  split; [vm_compute; reflexivity|].
  split; [vm_compute; reflexivity|].
  split; vm_compute; reflexivity.
Qed.

(** ** The shape check *)

Lemma isPlainObject_object l o s :
  st_heap s !! l = Some o ->
  isPlainObject (VObj l) s
  = Normal (match obj_code o with
            | NotCallable =>
                match obj_proto o with
                | None => true
                | Some p => bool_decide (p = ObjectPrototype)
                end
            | _ => false
            end) s.
Proof.
  intros Hl. unfold isPlainObject. unfold strict_eq at 1.
  rewrite bool_decide_eq_false_2 by done.
  assert (Htypeof : typeof (VObj l) s
          = Normal (match obj_code o with
                    | NotCallable => "object"
                    | _ => "function"
                    end) s).
  { unfold typeof, bind, lookup_object. rewrite Hl. by destruct (obj_code o). }
  mstep Htypeof.
  destruct (obj_code o); cbn; try done.
  assert (Hproto : Object_getPrototypeOf (VObj l) s
          = Normal (match obj_proto o with Some p => VObj p | None => VNull end) s).
  { unfold Object_getPrototypeOf, bind, lookup_object. by rewrite Hl. }
  mstep Hproto. unfold ret, strict_eq. f_equal.
  destruct (obj_proto o) as [p|]; [|done].
  rewrite (bool_decide_eq_false_2 (VObj p = VNull)) by done.
  rewrite orb_false_r. apply bool_decide_ext. split; congruence.
Qed.

Lemma isPlainObject_inv value b s s' :
  isPlainObject value s = Normal b s' ->
  s' = s /\ (b = true -> plain_record (st_heap s) value).
Proof.
  destruct value as [| | | | |l];
    try (unfold isPlainObject, strict_eq, typeof, ret, bind; cbn;
         intros [= <- <-]; done).
  destruct (st_heap s !! l) as [o|] eqn:Hl.
  - rewrite (isPlainObject_object l o s Hl). intros [= <- <-]. split; [done|].
    intros Hb. exists l, o. destruct (obj_code o); try done.
    destruct (obj_proto o) as [p|]; [|by eauto].
    apply bool_decide_eq_true in Hb as ->. by eauto.
  - unfold isPlainObject. unfold strict_eq at 1.
    rewrite bool_decide_eq_false_2 by done. cbv beta iota.
    unfold typeof, lookup_object, bind. by rewrite Hl.
Qed.

Lemma isPlainObject_plain value s :
  plain_record (st_heap s) value -> isPlainObject value s = Normal true s.
Proof.
  intros (l & o & -> & Hl & Hcode & Hproto).
  rewrite (isPlainObject_object l o s Hl), Hcode.
  by destruct Hproto as [-> | ->].
Qed.

(** ** The flattener *)

(** Whenever [toBlankObj] returns, it has allocated one object, at the first
    free location, and returns it: prototype-less, not callable, and without
    any native name. *)
Lemma toBlankObj_inv obj s blank s' :
  toBlankObj obj s = Normal blank s' ->
  exists r (props : gmap string descriptor),
    blank = VObj (fresh_loc (st_heap s))
    /\ s' = set_heap (<[fresh_loc (st_heap s) := r]> (st_heap s)) s
    /\ obj_proto r = None
    /\ obj_extensible r = true
    /\ obj_code r = NotCallable
    /\ forall k, obj_props r !! k =
         if nameIsNotNative k then set_enumerable true <$> props !! k else None.
Proof.
  intros Hrun.
  assert (Hcase : (exists props, own_properties obj s = Normal props s)
                  \/ own_properties obj s = Abrupt TypeError s
                  \/ exists l, obj = VObj l /\ st_heap s !! l = None).
  { destruct obj as [| | | | |l]; cbn; unfold ret, throw; eauto.
    unfold bind, lookup_object.
    destruct (st_heap s !! l) as [o|] eqn:Hl; eauto. }
  destruct Hcase as [[props Hread] | [Hthrow | (l & -> & Hl)]].
  - destruct (toBlankObj_returns obj props s Hread) as (r & Hret & Hr).
    rewrite Hret in Hrun. injection Hrun as <- <-. by exists r, props.
  - exfalso.
    unfold toBlankObj, getOwnPrototypeNames, Object_getOwnPropertyNames,
      Object_create, alloc in Hrun.
    destruct obj as [| | | | |l]; try done;
      try (unfold own_properties, bind, throw, ret in Hrun; done).
    unfold own_properties, lookup_object, bind in Hthrow.
    by destruct (st_heap s !! l).
  - unfold toBlankObj in Hrun.
    rewrite (bind_Normal _ _ s (VObj (fresh_loc (st_heap s)))
               (State (<[fresh_loc (st_heap s) := ordinary None ∅]> (st_heap s))
                      (st_trace s))) in Hrun by reflexivity.
    destruct (decide (l = fresh_loc (st_heap s))) as [->|Hne].
    + exists (ordinary None ∅), ∅.
      unfold getOwnPrototypeNames, Object_getOwnPropertyNames, own_properties,
        bind, lookup_object in Hrun.
      cbn in Hrun. rewrite lookup_insert_eq in Hrun. cbn in Hrun.
      rewrite map_to_list_empty in Hrun. cbn in Hrun.
      injection Hrun as <- <-. repeat split; try done.
      intros k. rewrite lookup_empty. by destruct (nameIsNotNative k).
    + exfalso.
      unfold getOwnPrototypeNames, Object_getOwnPropertyNames, own_properties,
        bind, lookup_object in Hrun.
      cbn in Hrun. by rewrite lookup_insert_ne, Hl in Hrun.
Qed.

Lemma own_properties_object l o s :
  st_heap s !! l = Some o -> own_properties (VObj l) s = Normal (obj_props o) s.
Proof. intros Hl. unfold own_properties, lookup_object, bind. by rewrite Hl. Qed.

Lemma blank_is_plain (h : gmap loc object) b r :
  obj_proto r = None -> obj_code r = NotCallable ->
  plain_record (<[b := r]> h) (VObj b).
Proof.
  intros Hproto Hcode. exists b, r. rewrite lookup_insert_eq. eauto.
Qed.

(** C1. [toBlankObj] on an object of the heap returns a freshly created
    object without prototype whose own properties are exactly the own
    property names of the input that are not native names; every one of
    them is enumerable and carries the input's descriptor with nothing but
    the enumerable flag changed. *)
Theorem toBlankObj_flattens (s : state) (l : loc) (o : object) :
  st_heap s !! l = Some o ->
  exists b r,
    toBlankObj (VObj l) s
    = Normal (VObj b) (set_heap (<[b := r]> (st_heap s)) s)
    /\ st_heap s !! b = None
    /\ obj_proto r = None
    /\ (forall k, is_Some (obj_props r !! k)
          <-> is_Some (obj_props o !! k) /\ ~ In k NATIVE_PROPS_NON_ENUMERABLE)
    /\ (forall k d', obj_props r !! k = Some d' ->
          desc_enumerable d' = true
          /\ exists d, obj_props o !! k = Some d
               /\ d' = set_enumerable true d
               /\ desc_value d' = desc_value d
               /\ desc_get d' = desc_get d
               /\ desc_set d' = desc_set d
               /\ desc_writable d' = desc_writable d
               /\ desc_configurable d' = desc_configurable d).
Proof.
  intros Hl.
  destruct (toBlankObj_returns (VObj l) (obj_props o) s
              (own_properties_object l o s Hl))
    as (r & Hrun & Hproto & _ & _ & Hlook).
  exists (fresh_loc (st_heap s)), r.
  split; [done|]. split; [apply fresh_loc_None|]. split; [done|]. split.
  - intros k. rewrite Hlook, <- nameIsNotNative_iff.
    destruct (nameIsNotNative k).
    + rewrite fmap_is_Some. tauto.
    + split; [by intros [? ?] | by intros [_ ?]].
  - intros k d' Hk. rewrite Hlook in Hk.
    destruct (nameIsNotNative k); [|done].
    destruct (obj_props o !! k) as [d|]; [|done].
    injection Hk as <-. split; [by destruct d|].
    exists d. by destruct d.
Qed.

Lemma toBlankObj_flattens_witness :
  exists b r,
    toBlankObj (VObj 11) Example.start
    = Normal (VObj b) (set_heap (<[b := r]> Example.heap) Example.start)
    /\ Example.heap !! b = None
    /\ obj_proto r = None
    /\ (forall k, is_Some (obj_props r !! k)
          <-> is_Some (obj_props Example.class_prototype !! k)
              /\ ~ In k NATIVE_PROPS_NON_ENUMERABLE)
    /\ (forall k d', obj_props r !! k = Some d' ->
          desc_enumerable d' = true
          /\ exists d, obj_props Example.class_prototype !! k = Some d
               /\ d' = set_enumerable true d
               /\ desc_value d' = desc_value d
               /\ desc_get d' = desc_get d
               /\ desc_set d' = desc_set d
               /\ desc_writable d' = desc_writable d
               /\ desc_configurable d' = desc_configurable d).
Proof.
  apply (toBlankObj_flattens Example.start 11 Example.class_prototype).
  reflexivity.
Defined.

(** C2. No native name is an own property of the result of [toBlankObj],
    whatever the input defines: on an object of the heap the call returns
    such a result, and whenever the call returns, on any input, its result
    lacks the name. *)
Theorem toBlankObj_excludes_native (name : string) (s : state) (l : loc)
    (o : object) :
  In name NATIVE_PROPS_NON_ENUMERABLE ->
  st_heap s !! l = Some o ->
  (exists b r s',
     toBlankObj (VObj l) s = Normal (VObj b) s'
     /\ st_heap s' !! b = Some r
     /\ obj_props r !! name = None)
  /\ (forall obj s0 blank s',
        toBlankObj obj s0 = Normal blank s' ->
        exists b r, blank = VObj b /\ st_heap s' !! b = Some r
                    /\ obj_props r !! name = None).
Proof.
  intros Hnative Hl.
  assert (Hname : nameIsNotNative name = false).
  { destruct (nameIsNotNative name) eqn:Hn; [|done].
    by apply nameIsNotNative_iff in Hn. }
  assert (Hany : forall obj s0 blank s',
            toBlankObj obj s0 = Normal blank s' ->
            exists b r, blank = VObj b /\ st_heap s' !! b = Some r
                        /\ obj_props r !! name = None).
  { intros obj s0 blank s' Hrun.
    destruct (toBlankObj_inv obj s0 blank s' Hrun)
      as (r & props & -> & -> & _ & _ & _ & Hlook).
    exists (fresh_loc (st_heap s0)), r. split; [done|]. split.
    - cbn. apply lookup_insert_eq.
    - by rewrite Hlook, Hname. }
  split; [|done].
  destruct (toBlankObj_returns (VObj l) (obj_props o) s
              (own_properties_object l o s Hl)) as (r & Hrun & _).
  destruct (Hany _ _ _ _ Hrun) as (b & r' & [= <-] & Hb & Hnone).
  eauto 10.
Qed.

Lemma toBlankObj_excludes_native_witness :
  obj_props Example.class_prototype !! "toString"
  = Some (DData (VObj 5) true false true)
  /\ exists b r s',
       toBlankObj (VObj 11) Example.start = Normal (VObj b) s'
       /\ st_heap s' !! b = Some r
       /\ obj_props r !! "toString" = None.
Proof.
  split; [reflexivity|].
  apply (toBlankObj_excludes_native "toString" Example.start 11
           Example.class_prototype).
  - cbn. tauto.
  - reflexivity.
Defined.

(** C7. [toBlankObj] does not touch its input: after the call the object
    is, descriptor for descriptor, what it was before, as is every other
    object that existed, and no user code has run. *)
Theorem toBlankObj_preserves_input (s : state) (l : loc) (o : object) :
  st_heap s !! l = Some o ->
  exists blank s',
    toBlankObj (VObj l) s = Normal blank s'
    /\ st_heap s' !! l = Some o
    /\ (forall l' o', st_heap s !! l' = Some o' -> st_heap s' !! l' = Some o')
    /\ st_trace s' = st_trace s.
Proof.
  intros Hl.
  destruct (toBlankObj_returns (VObj l) (obj_props o) s
              (own_properties_object l o s Hl)) as (r & Hrun & _).
  eexists _, _. split; [exact Hrun|].
  assert (Hkeep : forall l' o', st_heap s !! l' = Some o' ->
            st_heap (set_heap (<[fresh_loc (st_heap s) := r]> (st_heap s)) s) !! l'
            = Some o').
  { intros l' o' Hl'. cbn. rewrite lookup_insert_ne; [done|].
    symmetry. by eapply fresh_loc_ne. }
  by eauto.
Qed.

Lemma toBlankObj_preserves_input_witness :
  exists blank s',
    toBlankObj (VObj 11) Example.start = Normal blank s'
    /\ st_heap s' !! 11 = Some Example.class_prototype
    /\ (forall l' o', Example.heap !! l' = Some o' -> st_heap s' !! l' = Some o')
    /\ st_trace s' = [].
Proof.
  apply (toBlankObj_preserves_input Example.start 11 Example.class_prototype).
  reflexivity.
Defined.

(** ** The normalizer *)

Lemma thisless_plain invoke _class s :
  plain_record (st_heap s) _class -> thisless invoke _class s = Normal _class s.
Proof.
  intros Hplain. unfold thisless.
  by rewrite (bind_Normal _ _ _ _ _ (isPlainObject_plain _ _ Hplain)).
Qed.

Lemma thisless_inv invoke _class s r s' :
  thisless invoke _class s = Normal r s' ->
  (plain_record (st_heap s) _class /\ r = _class /\ s' = s)
  \/ (exists proto s1,
        get invoke _class "prototype" s = Normal proto s1
        /\ toBlankObj proto s1 = Normal r s').
Proof.
  unfold thisless. intros Hrun.
  destruct (isPlainObject _class s) as [b s0| | |] eqn:Hplain;
    try (by rewrite ?(bind_Abrupt _ _ _ _ _ Hplain), ?(bind_Diverge _ _ _ Hplain),
              ?(bind_Stuck _ _ _ Hplain) in Hrun).
  rewrite (bind_Normal _ _ _ _ _ Hplain) in Hrun.
  apply isPlainObject_inv in Hplain as [-> Hb].
  destruct b; cbn in Hrun.
  - injection Hrun as <- <-. left. by auto.
  - right.
    destruct (get invoke _class "prototype" s) as [proto s1| | |] eqn:Hget;
      try (by rewrite ?(bind_Abrupt _ _ _ _ _ Hget), ?(bind_Diverge _ _ _ Hget),
                ?(bind_Stuck _ _ _ Hget) in Hrun).
    rewrite (bind_Normal _ _ _ _ _ Hget) in Hrun. eauto.
Qed.

Lemma toBlankObj_result_plain obj s blank s' :
  toBlankObj obj s = Normal blank s' ->
  plain_record (st_heap s') blank /\ proto_of s' blank = Some None.
Proof.
  intros Hrun.
  destruct (toBlankObj_inv obj s blank s' Hrun)
    as (r & props & -> & -> & Hproto & _ & Hcode & _).
  split; [by apply blank_is_plain|].
  cbn. by rewrite lookup_insert_eq, <- Hproto.
Qed.

(** C4. On a value that [isPlainObject] accepts (an object that is not a
    function and whose prototype is Object.prototype or null), [thisless]
    returns that very reference and leaves the state as it was. *)
Theorem thisless_plain_identity
    (invoke : jsval -> jsval -> list jsval -> M jsval) (v : jsval)
    (s s' : state) :
  isPlainObject v s = Normal true s' ->
  thisless invoke v s = Normal v s
  /\ s' = s
  /\ plain_record (st_heap s) v.
Proof.
  intros Hplain. apply isPlainObject_inv in Hplain as [-> Hrec].
  specialize (Hrec eq_refl). split; [|done]. by apply thisless_plain.
Qed.

Lemma thisless_plain_identity_witness :
  thisless (call Example.user 1) (VObj 15) Example.start
  = Normal (VObj 15) Example.start
  /\ Example.start = Example.start
  /\ plain_record Example.heap (VObj 15).
Proof.
  apply (thisless_plain_identity (call Example.user 1) (VObj 15)
           Example.start Example.start).
  vm_compute. reflexivity.
Defined.

(** C9. The record [toBlankObj] returns has no prototype and passes
    [isPlainObject], so [thisless] returns it unchanged; and whenever
    [thisless] returns, applying it again to the result returns the result
    and changes nothing. *)
Theorem thisless_idempotent
    (invoke : jsval -> jsval -> list jsval -> M jsval) :
  (forall s l o, st_heap s !! l = Some o ->
     exists blank s',
       toBlankObj (VObj l) s = Normal blank s'
       /\ proto_of s' blank = Some None
       /\ isPlainObject blank s' = Normal true s'
       /\ thisless invoke blank s' = Normal blank s')
  /\ (forall x s r s',
        thisless invoke x s = Normal r s' ->
        thisless invoke r s' = Normal r s').
Proof.
  split.
  - intros s l o Hl.
    destruct (toBlankObj_returns (VObj l) (obj_props o) s
                (own_properties_object l o s Hl)) as (r & Hrun & _).
    destruct (toBlankObj_result_plain _ _ _ _ Hrun) as [Hplain Hproto].
    eexists _, _. split; [exact Hrun|]. split; [done|]. split.
    + by apply isPlainObject_plain.
    + by apply thisless_plain.
  - intros x s r s' Hrun.
    apply thisless_inv in Hrun as [(Hplain & -> & ->) | (proto & s1 & _ & Hblank)].
    + by apply thisless_plain.
    + apply thisless_plain. by apply (toBlankObj_result_plain _ _ _ _ Hblank).
Qed.

Lemma thisless_idempotent_witness :
  exists r s',
    thisless (call Example.user 1) (VObj 10) Example.start = Normal r s'
    /\ thisless (call Example.user 1) r s' = Normal r s'.
Proof.
  eexists _, _. split; [vm_compute; reflexivity|].
  apply (proj2 (thisless_idempotent (call Example.user 1))
           (VObj 10) Example.start).
  vm_compute. reflexivity.
Defined.

(** ** Instantiation *)

Lemma construct_not_callable H fuel v args s :
  code_of s v = Some NotCallable ->
  construct H fuel v args s = Abrupt TypeError s.
Proof.
  destruct v as [| | | | |l]; try done. cbn.
  destruct (st_heap s !! l) as [o|] eqn:Hl; [|done]. intros [= Hcode].
  unfold bind, lookup_object. by rewrite Hl, Hcode.
Qed.

Lemma plain_record_code h s v :
  st_heap s = h -> plain_record h v -> code_of s v = Some NotCallable.
Proof.
  intros <- (l & o & -> & Hl & Hcode & _). cbn. by rewrite Hl, <- Hcode.
Qed.

(** C5, what fails: [thisless] hands a plain record back as it is, so a
    record that inherits from Object.prototype still does afterwards. *)
Lemma thisless_result_keeps_prototype :
  thisless (call Example.user 1) (VObj 15) Example.start
  = Normal (VObj 15) Example.start
  /\ proto_of Example.start (VObj 15) = Some (Some ObjectPrototype)
  /\ proto_of Example.start (VObj 15) <> Some None.
Proof. split; [|split]; [vm_compute; reflexivity .. | discriminate]. Qed.

(** C5, as the code has it.  The result of [toBlankObj] has no prototype.
    The result of [thisless] has none either, unless the input was a plain
    record inheriting from Object.prototype, which is returned as it is.  In
    every case the result is not a function, and [new] on it throws a
    TypeError. *)
Theorem normalized_result_not_constructible (H : host) (fuel : nat) :
  (forall obj s blank s',
     toBlankObj obj s = Normal blank s' ->
     proto_of s' blank = Some None
     /\ forall args, construct H fuel blank args s' = Abrupt TypeError s')
  /\ (forall (invoke : jsval -> jsval -> list jsval -> M jsval) v s r s',
        thisless invoke v s = Normal r s' ->
        (forall args, construct H fuel r args s' = Abrupt TypeError s')
        /\ (proto_of s' r = Some None
            \/ (r = v /\ s' = s /\ plain_record (st_heap s) v
                /\ proto_of s v = Some (Some ObjectPrototype)))).
Proof.
  assert (Hblank : forall obj s blank s',
     toBlankObj obj s = Normal blank s' ->
     proto_of s' blank = Some None
     /\ forall args, construct H fuel blank args s' = Abrupt TypeError s').
  { intros obj s blank s' Hrun.
    destruct (toBlankObj_result_plain _ _ _ _ Hrun) as [Hplain Hproto].
    split; [done|]. intros args. apply construct_not_callable.
    by eapply plain_record_code. }
  split; [done|].
  intros invoke v s r s' Hrun.
  apply thisless_inv in Hrun as [(Hplain & -> & ->) | (proto & s1 & _ & Hrun)].
  - split.
    + intros args. apply construct_not_callable. by eapply plain_record_code.
    + destruct Hplain as (l & o & -> & Hl & Hcode & [Hp | Hp]).
      * right. repeat split; try done.
        -- exists l, o. by eauto.
        -- cbn. by rewrite Hl, <- Hp.
      * left. cbn. by rewrite Hl, <- Hp.
  - destruct (Hblank _ _ _ _ Hrun) as [Hproto Hnew]. by auto.
Qed.

Lemma normalized_result_not_constructible_witness :
  exists r s',
    thisless (call Example.user 1) (VObj 10) Example.start = Normal r s'
    /\ proto_of s' r = Some None
    /\ construct Example.user 1 r [] s' = Abrupt TypeError s'
    /\ construct Example.user 1 (VObj 15) [] Example.start
       = Abrupt TypeError Example.start.
Proof.
  destruct (normalized_result_not_constructible Example.user 1) as [_ Hthis].
  eexists _, _. split; [vm_compute; reflexivity|].
  split; [vm_compute; reflexivity|]. split.
  - eapply (Hthis (call Example.user 1) (VObj 10) Example.start).
    vm_compute. reflexivity.
  - eapply (Hthis (call Example.user 1) (VObj 15) Example.start).
    vm_compute. reflexivity.
Defined.

(** ** Function objects and calls *)

Lemma defineProperty_new l o key d s :
  st_heap s !! l = Some o ->
  obj_extensible o = true ->
  obj_props o !! key = None ->
  Object_defineProperty (VObj l) key d s
  = Normal (VObj l)
      (set_heap (<[l := with_props o (<[key := d]> (obj_props o))]> (st_heap s)) s).
Proof.
  intros Hl Hext Hkey. unfold Object_defineProperty, lookup_object, bind.
  rewrite Hl, Hkey. cbn. unfold with_props, ret. by rewrite Hext.
Qed.

(** Evaluating a function expression allocates, runs no user code, leaves
    the objects there were alone, and yields a function with the given
    behaviour. *)
Lemma make_function_spec code name len s :
  exists f s',
    make_function code name len s = Normal (VObj f) s'
    /\ st_heap s !! f = None
    /\ (forall l o, st_heap s !! l = Some o -> st_heap s' !! l = Some o)
    /\ code_of s' (VObj f) = Some code
    /\ st_trace s' = st_trace s.
Proof.
  set (f := fresh_loc (st_heap s)).
  set (fo := Object (Some FunctionPrototype) true
      (<["length" := DData (VNum (Z.of_nat len)) false false true]>
         {["name" := DData (VStr name) false false true]}) code).
  set (p := fresh_loc (<[f := fo]> (st_heap s))).
  set (po := ordinary (Some ObjectPrototype)
      {["constructor" := DData (VObj f) true false true]}).
  set (fo' := with_props fo
      (<["prototype" := DData (VObj p) true false false]> (obj_props fo))).
  assert (Hpf : p <> f).
  { intros Heq. pose proof (fresh_loc_None (<[f := fo]> (st_heap s))) as Hp.
    fold p in Hp. by rewrite Heq, lookup_insert_eq in Hp. }
  exists f, (set_heap (<[f := fo']> (<[p := po]> (<[f := fo]> (st_heap s)))) s).
  split; [|split; [apply fresh_loc_None|split; [|split]]].
  - unfold make_function.
    rewrite (bind_Normal _ _ s f (set_heap (<[f := fo]> (st_heap s)) s))
      by reflexivity.
    rewrite (bind_Normal _ _ _ p
               (set_heap (<[p := po]> (<[f := fo]> (st_heap s))) s))
      by reflexivity.
    assert (Hf : st_heap (set_heap (<[p := po]> (<[f := fo]> (st_heap s))) s)
                 !! f = Some fo).
    { cbn. by rewrite lookup_insert_ne, lookup_insert_eq by done. }
    by rewrite (bind_Normal _ _ _ _ _
                  (defineProperty_new f fo "prototype"
                     (DData (VObj p) true false false) _ Hf eq_refl eq_refl)).
  - intros l o Hl. cbn.
    assert (l <> f) by (by eapply fresh_loc_ne).
    assert (l <> p).
    { eapply (fresh_loc_ne (<[f := fo]> (st_heap s))).
      by rewrite lookup_insert_ne. }
    by rewrite !lookup_insert_ne.
  - cbn. by rewrite lookup_insert_eq.
  - done.
Qed.

Lemma call_user H fuel l o id ctor this args s :
  st_heap s !! l = Some o ->
  obj_code o = UserCode id ctor ->
  call H (S fuel) (VObj l) this args s
  = run_host (host_call H id this args (st_heap s)) (log (EvCall l this args) s).
Proof.
  intros Hl Hcode. cbn. unfold bind, lookup_object. by rewrite Hl, Hcode.
Qed.

Lemma call_curry H fuel g fn this args s :
  code_of s (VObj g) = Some (SelflessCurry fn) ->
  call H (S fuel) (VObj g) this args s = selflessCurry (call H fuel) fn args s.
Proof.
  cbn. destruct (st_heap s !! g) as [o|] eqn:Hg; [|done]. intros [= Hcode].
  unfold bind at 1. unfold lookup_object. by rewrite Hg, Hcode.
Qed.

Lemma equivalent_refl o : equivalent o o.
Proof. by destruct o. Qed.

(** C3. [selfless(p)] returns a function; in any state in which that
    function exists, calling it on [c] is the very computation that
    [selfless(p, c)] is, with an extra call frame: same value, same throw,
    same final state, and so, as objects, the same own enumerable keys with
    the same descriptor shapes. *)
Theorem selfless_curried_equivalent (H : host) (fuel : nat) (p c : jsval)
    (s : state) :
  exists g s_g,
    selfless (call H fuel) [p] s = Normal (VObj g) s_g
    /\ code_of s_g (VObj g) = Some (SelflessCurry p)
    /\ forall s' this,
         code_of s' (VObj g) = Some (SelflessCurry p) ->
         call H (S fuel) (VObj g) this [c] s' = selfless (call H fuel) [p; c] s'
         /\ equivalent (call H (S fuel) (VObj g) this [c] s')
                       (selfless (call H fuel) [p; c] s').
Proof.
  destruct (make_function_spec (SelflessCurry p) "selflessCurry" 1 s)
    as (g & s_g & Hmake & _ & _ & Hcode & _).
  exists g, s_g. split; [exact Hmake|]. split; [exact Hcode|].
  intros s' this Hg.
  assert (Heq : call H (S fuel) (VObj g) this [c] s'
                = selfless (call H fuel) [p; c] s').
  { by rewrite (call_curry _ _ _ _ _ _ _ Hg). }
  split; [exact Heq|]. rewrite Heq. apply equivalent_refl.
Qed.

(** ** The deferred binder *)

(** However [toBlankObj] ends, it has run no user code. *)
Lemma toBlankObj_trace obj s t :
  outcome_trace (toBlankObj obj s) = Some t -> t = st_trace s.
Proof.
  destruct (toBlankObj obj s) as [blank s'|e s'| |] eqn:Hrun; try done.
  - destruct (toBlankObj_inv _ _ _ _ Hrun) as (r & props & _ & -> & _).
    by intros [= <-].
  - intros [= <-].
    unfold toBlankObj in Hrun.
    rewrite (bind_Normal _ _ s (VObj (fresh_loc (st_heap s)))
               (State (<[fresh_loc (st_heap s) := ordinary None ∅]> (st_heap s))
                      (st_trace s))) in Hrun by reflexivity.
    set (s1 := State (<[fresh_loc (st_heap s) := ordinary None ∅]> (st_heap s))
                 (st_trace s)) in *.
    assert (Hcase : (exists props, own_properties obj s = Normal props s)
                    \/ own_properties obj s1 = Abrupt TypeError s1
                    \/ exists l, obj = VObj l /\ st_heap s !! l = None).
    { destruct obj as [| | | | |l]; cbn; unfold ret, throw; eauto.
      unfold bind, lookup_object.
      destruct (st_heap s !! l) as [o|] eqn:Hl; eauto. }
    destruct Hcase as [[props Hread] | [Hthrow | (l & -> & Hl)]].
    + exfalso. destruct (toBlankObj_returns obj props s Hread) as (r & Hret & _).
      unfold toBlankObj in Hret.
      rewrite (bind_Normal _ _ s (VObj (fresh_loc (st_heap s))) s1) in Hret
        by reflexivity.
      congruence.
    + unfold getOwnPrototypeNames, Object_getOwnPropertyNames in Hrun.
      rewrite (bind_Abrupt _ _ _ _ _
                 (bind_Abrupt _ _ _ _ _ (bind_Abrupt _ _ _ _ _ Hthrow))) in Hrun.
      by injection Hrun as _ <-.
    + exfalso.
      unfold getOwnPrototypeNames, Object_getOwnPropertyNames, own_properties,
        bind, lookup_object in Hrun.
      cbn in Hrun.
      destruct (decide (l = fresh_loc (st_heap s))) as [->|Hne].
      * rewrite lookup_insert_eq in Hrun. cbn in Hrun.
        by rewrite map_to_list_empty in Hrun.
      * by rewrite lookup_insert_ne, Hl in Hrun.
Qed.

Lemma get_own_data invoke l o key v w e c s :
  st_heap s !! l = Some o ->
  obj_props o !! key = Some (DData v w e c) ->
  get invoke (VObj l) key s = Normal v s.
Proof.
  intros Hl Hkey. unfold get, find_property, find_in_chain. cbn.
  by rewrite Hl, Hkey.
Qed.

Lemma isPlainObject_outcome value s :
  (exists b, isPlainObject value s = Normal b s) \/ isPlainObject value s = Stuck.
Proof.
  destruct value as [| | | | |l];
    try (left; eexists; unfold isPlainObject, strict_eq, typeof, ret, bind;
         cbn; reflexivity).
  destruct (st_heap s !! l) as [o|] eqn:Hl.
  - left. eexists. by apply isPlainObject_object.
  - right. unfold isPlainObject. unfold strict_eq at 1.
    rewrite bool_decide_eq_false_2 by done. cbv beta iota.
    unfold typeof, lookup_object, bind. by rewrite Hl.
Qed.

(** On a plain record, and on any value whose [prototype] is read without
    a getter, [thisless] runs no user code. *)
Lemma thisless_trace invoke _class s t :
  plain_record (st_heap s) _class \/ reads_plainly (st_heap s) _class "prototype" ->
  outcome_trace (thisless invoke _class s) = Some t -> t = st_trace s.
Proof.
  intros [Hplain | Hread].
  - rewrite (thisless_plain _ _ _ Hplain). by intros [= <-].
  - unfold thisless.
    destruct (isPlainObject_outcome _class s) as [[b Hb] | Hstuck];
      [|by rewrite (bind_Stuck _ _ _ Hstuck)].
    mstep Hb. destruct b; cbn; [by intros [= <-]|].
    assert (Hget : (exists x, get invoke _class "prototype" s = Normal x s)
                   \/ get invoke _class "prototype" s = Abrupt TypeError s
                   \/ get invoke _class "prototype" s = Diverge
                   \/ get invoke _class "prototype" s = Stuck).
    { unfold reads_plainly in Hread. unfold get.
      destruct _class as [| | | | |l]; [by auto | by auto | | | |];
        (destruct (find_property (st_heap s) _ "prototype") as [d| | |];
         [|by eauto|by eauto|by eauto];
         destruct d as [x w e c|g st e c]; [by eauto|];
         rewrite (Hread g st e c eq_refl); by eauto). }
    destruct Hget as [[x Hx] | [Hx | [Hx | Hx]]].
    + mstep Hx. apply toBlankObj_trace.
    + mstep Hx. by intros [= <-].
    + by mstep Hx.
    + by mstep Hx.
Qed.

Lemma thisless_result_code invoke _class s r s' :
  thisless invoke _class s = Normal r s' -> code_of s' r = Some NotCallable.
Proof.
  intros [(Hplain & -> & ->) | (proto & s1 & _ & Hblank)]%thisless_inv.
  - by eapply plain_record_code.
  - eapply plain_record_code; [done|].
    by apply (toBlankObj_result_plain _ _ _ _ Hblank).
Qed.

(** C6. A resolved call of [selfless] on a provider [p] enters [p] once,
    with the context as its only argument, before anything else.  If [p]
    throws, the same exception, unwrapped, is the outcome, with nothing
    run after it; if [p] does not return, neither does [selfless]; if [p]
    returns, the outcome is that of [thisless] on the value returned; when
    that value is a plain record, or its [prototype] is read without a
    getter (as on every class), the trace of the whole call is that single
    entry.  A call of the curried function is the same computation. *)
Theorem selfless_invokes_provider_once (H : host) (fuel : nat) (lp : loc)
    (op : object) (id : nat) (ctor : bool) (c : jsval) (s : state) :
  st_heap s !! lp = Some op ->
  obj_code op = UserCode id ctor ->
  let entered := log (EvCall lp VUndefined [c]) s in
  let eager := selfless (call H (S fuel)) [VObj lp; c] s in
  (forall e h',
     host_call H id VUndefined [c] (st_heap s) = HThrow e h' ->
     eager = Abrupt e (set_heap h' entered))
  /\ (host_call H id VUndefined [c] (st_heap s) = HDiverge -> eager = Diverge)
  /\ (forall v h',
        host_call H id VUndefined [c] (st_heap s) = HReturn v h' ->
        eager = thisless (call H (S fuel)) v (set_heap h' entered)
        /\ (plain_record h' v \/ reads_plainly h' v "prototype" ->
            forall t, outcome_trace eager = Some t ->
                      t = (st_trace s ++ [EvCall lp VUndefined [c]])%list))
  /\ (forall g this,
        code_of s (VObj g) = Some (SelflessCurry (VObj lp)) ->
        call H (S (S fuel)) (VObj g) this [c] s = eager).
Proof.
  intros Hlp Hcode entered eager.
  assert (Heager : eager
    = (let* _class := fun s0 =>
         run_host (host_call H id VUndefined [c] (st_heap s)) entered in
       thisless (call H (S fuel)) _class) s).
  { unfold eager, selfless. cbn [List.length Nat.eqb arg nth].
    unfold bind. by rewrite (call_user H fuel lp op id ctor _ _ s Hlp Hcode). }
  split; [|split; [|split]].
  - intros e h' Hrun. rewrite Heager. unfold bind. by rewrite Hrun.
  - intros Hrun. rewrite Heager. unfold bind. by rewrite Hrun.
  - intros v h' Hrun.
    assert (Hthis : eager = thisless (call H (S fuel)) v (set_heap h' entered)).
    { rewrite Heager. unfold bind. by rewrite Hrun. }
    split; [exact Hthis|]. intros Hclass t. rewrite Hthis.
    intros Ht. by apply thisless_trace in Ht.
  - intros g this Hg. by rewrite (call_curry _ _ _ _ _ _ _ Hg).
Qed.

Lemma selfless_invokes_provider_once_witness :
  outcome_trace
    (selfless (call Example.user 1) [VObj 14; VObj 15] Example.start)
  = Some [EvCall 14 VUndefined [VObj 15]]
  /\ selfless (call Example.user 1) [VObj 16; VObj 15] Example.start
     = Abrupt (Thrown (VStr "boom"))
         (log (EvCall 16 VUndefined [VObj 15]) Example.start).
Proof.
  split.
  - destruct (selfless_invokes_provider_once Example.user 0 14
                (Example.function_object 4 false ∅) 4 false (VObj 15)
                Example.start eq_refl eq_refl) as (_ & _ & Hret & _).
    destruct (Hret (VObj 10) Example.heap eq_refl) as [_ Htrace].
    destruct (outcome_trace
                (selfless (call Example.user 1) [VObj 14; VObj 15] Example.start))
      as [t|] eqn:Ht; [|by vm_compute in Ht].
    f_equal. apply Htrace; [|done].
    right. intros g st e c Hfound. vm_compute in Hfound. discriminate.
  - destruct (selfless_invokes_provider_once Example.user 0 16
                (Example.function_object 5 false ∅) 5 false (VObj 15)
                Example.start eq_refl eq_refl) as (Hthrow & _).
    apply (Hthrow (Thrown (VStr "boom")) Example.heap eq_refl).
Defined.

Lemma bind_inv_Normal {A B} (m : M A) (k : A -> M B) s b s' :
  bind m k s = Normal b s' ->
  exists a s1, m s = Normal a s1 /\ k a s1 = Normal b s'.
Proof. unfold bind. destruct (m s) as [a s1| | |]; try done. eauto. Qed.

(** C10. [selfless] looks at how many arguments it got, not at what they
    are.  With two arguments the second of which is [undefined] it calls
    [fn(undefined)] at once and returns the normalized result, which is
    never a function; with exactly one argument it calls nothing and returns
    the curried function; with any other number of arguments it takes the
    eager branch. *)
Theorem selfless_dispatches_on_arity
    (invoke : jsval -> jsval -> list jsval -> M jsval) (fn : jsval)
    (s : state) :
  selfless invoke [fn; VUndefined] s
  = (let* _class := invoke fn VUndefined [VUndefined] in
     thisless invoke _class) s
  /\ (forall r s',
        selfless invoke [fn; VUndefined] s = Normal r s' ->
        code_of s' r = Some NotCallable)
  /\ (exists g s',
        selfless invoke [fn] s = Normal (VObj g) s'
        /\ st_heap s !! g = None
        /\ code_of s' (VObj g) = Some (SelflessCurry fn)
        /\ st_trace s' = st_trace s)
  /\ (forall args,
        List.length args <> 1%nat ->
        selfless invoke args s
        = (let* _class := invoke (arg 0 args) VUndefined [arg 1 args] in
           thisless invoke _class) s).
Proof.
  split; [reflexivity|]. split; [|split].
  - intros r s' Hrun.
    change (selfless invoke [fn; VUndefined] s)
      with ((let* _class := invoke fn VUndefined [VUndefined] in
             thisless invoke _class) s) in Hrun.
    apply bind_inv_Normal in Hrun as (_class & s1 & _ & Hthis).
    by eapply thisless_result_code.
  - destruct (make_function_spec (SelflessCurry fn) "selflessCurry" 1 s)
      as (g & s' & Hmake & Hfresh & _ & Hcode & Htrace).
    by exists g, s'.
  - intros args Hlen. unfold selfless.
    destruct (Nat.eqb_spec (List.length args) 1); [done|reflexivity].
Qed.

(** ** The integration patch *)

Lemma find_from_NotFound_stable key h h' n :
  agree_on key h h' ->
  forall m l, n <= m ->
    find_from n h l key = NotFound -> find_from m h' l key = NotFound.
Proof.
  intros Hagree. induction n as [|n IH]; intros m l Hle; [done|].
  destruct m as [|m]; [lia|]. cbn.
  destruct (h !! l) as [o|] eqn:Hl; [|done].
  destruct (Hagree l o Hl) as (o' & -> & Hproto & Hkey). rewrite Hkey, Hproto.
  destruct (obj_props o !! key); [done|].
  destruct (obj_proto o) as [p|]; [|done].
  apply IH. lia.
Qed.

Lemma find_from_own n (h : gmap loc object) l o key d :
  h !! l = Some o -> obj_props o !! key = Some d ->
  find_from (S n) h l key = Found d.
Proof. intros Hl Hkey. cbn. by rewrite Hl, Hkey. Qed.

Lemma find_from_step n (h : gmap loc object) l o key p :
  h !! l = Some o -> obj_props o !! key = None -> obj_proto o = Some p ->
  find_from (S n) h l key = find_from n h p key.
Proof. intros Hl Hkey Hp. cbn. by rewrite Hl, Hkey, Hp. Qed.

Lemma size_heap_pos (h : gmap loc object) l o :
  h !! l = Some o -> exists n, size h = S n.
Proof.
  intros Hl. destruct (size h) as [|n] eqn:Hsize; [|by eauto].
  apply map_size_empty_iff in Hsize. subst h. by rewrite lookup_empty in Hl.
Qed.

Lemma set_own_writable invoke l o key old e c v s :
  st_heap s !! l = Some o ->
  obj_props o !! key = Some (DData old true e c) ->
  set invoke (VObj l) key v s
  = Normal tt
      (set_heap (<[l := with_props o (<[key := DData v true e c]> (obj_props o))]>
                   (st_heap s)) s).
Proof.
  intros Hl Hkey. unfold set, lookup_object, bind. by rewrite Hl, Hkey.
Qed.

Lemma set_create invoke l o key v s :
  st_heap s !! l = Some o ->
  obj_props o !! key = None ->
  obj_extensible o = true ->
  (obj_proto o = None
   \/ exists p, obj_proto o = Some p
                /\ find_in_chain (st_heap s) p key = NotFound) ->
  set invoke (VObj l) key v s
  = Normal tt
      (set_heap (<[l := with_props o (<[key := DData v true true true]> (obj_props o))]>
                   (st_heap s)) s).
Proof.
  intros Hl Hkey Hext Hchain. unfold set, lookup_object, bind.
  rewrite Hl, Hkey.
  destruct Hchain as [-> | (p & -> & ->)];
    unfold create_data_property; by rewrite Hext.
Qed.

Lemma agree_on_size key (h h' : gmap loc object) :
  agree_on key h h' -> size h <= size h'.
Proof.
  intros Hagree. rewrite <- !(size_dom (D := gset loc)).
  apply subseteq_size. intros l [o Hl]%elem_of_dom.
  destruct (Hagree l o Hl) as (o' & Hl' & _). apply elem_of_dom. eauto.
Qed.

Lemma code_of_Some s l c :
  code_of s (VObj l) = Some c
  <-> exists o, st_heap s !! l = Some o /\ obj_code o = c.
Proof.
  cbn. destruct (st_heap s !! l) as [o|]; cbn; split.
  - intros [= <-]. eauto.
  - by intros (o' & [= <-] & <-).
  - done.
  - by intros (o' & ? & _).
Qed.

(** A model builder that has not been patched: [createStore] is nowhere
    on its chain. *)
Lemma unpatched_chain h x ox P oP :
  h !! x = Some ox ->
  obj_proto ox = Some P ->
  h !! P = Some oP ->
  find_in_chain h x "createStore" = NotFound ->
  obj_props ox !! "createStore" = None
  /\ obj_props oP !! "createStore" = None
  /\ (obj_proto oP = None
      \/ exists pp n, obj_proto oP = Some pp /\ size h = S n
           /\ find_from n h pp "createStore" = NotFound).
Proof.
  intros Hx Hproto HP. unfold find_in_chain. cbn. rewrite Hx.
  destruct (obj_props ox !! "createStore"); [done|]. rewrite Hproto.
  destruct (size h) as [|n] eqn:Hsize; [done|]. cbn. rewrite HP.
  destruct (obj_props oP !! "createStore"); [done|].
  destruct (obj_proto oP) as [pp|]; [|by auto].
  intros Hfind. split; [done|]. split; [done|]. right. by exists pp, n.
Qed.

(** The first application, on a model builder whose prototype is
    extensible and holds [actions] and [views] as writable properties:
    three functions are created and stored on the prototype, nothing else
    changes and no user code runs. *)
Lemma hack_run invoke s x P ox oP a v ea ca ev cv :
  st_heap s !! x = Some ox ->
  obj_proto ox = Some P ->
  st_heap s !! P = Some oP ->
  obj_extensible oP = true ->
  obj_props oP !! "actions" = Some (DData a true ea ca) ->
  obj_props oP !! "views" = Some (DData v true ev cv) ->
  find_in_chain (st_heap s) x "createStore" = NotFound ->
  exists wa wv wc s1,
    hackObjectTypePrototype invoke (VObj x) s = Normal VUndefined s1
    /\ st_trace s1 = st_trace s
    /\ st_heap s1 !! P
       = Some (with_props oP
           (<["createStore" := DData (VObj wc) true true true]>
           (<["views" := DData (VObj wv) true ev cv]>
           (<["actions" := DData (VObj wa) true ea ca]> (obj_props oP)))))
    /\ (forall l o, l <> P -> st_heap s !! l = Some o -> st_heap s1 !! l = Some o)
    /\ code_of s1 (VObj wa) = Some (ActionsWrapper a)
    /\ code_of s1 (VObj wv) = Some (ViewsWrapper v)
    /\ code_of s1 (VObj wc) = Some CreateStore.
Proof.
  intros Hx Hproto HP Hext Hactions Hviews Hfresh.
  destruct (unpatched_chain _ _ _ _ _ Hx Hproto HP Hfresh)
    as (_ & Hnone & Hchain).
  unfold hackObjectTypePrototype.
  rewrite (bind_Normal _ _ s false s)
    by (unfold has_property; by rewrite Hfresh).
  cbv iota.
  rewrite (bind_Normal _ _ s (VObj P) s)
    by (unfold Object_getPrototypeOf, lookup_object, bind; by rewrite Hx, Hproto).
  rewrite (bind_Normal _ _ s a s) by (by eapply get_own_data).
  rewrite (bind_Normal _ _ s v s) by (by eapply get_own_data).
  (* ObjectTypeProto.actions = function(actionArgs) ... *)
  destruct (make_function_spec (ActionsWrapper a) "" 1 s)
    as (wa & s2 & Hmake & Hwa & Hkeep2 & Hcode_a & Htrace2).
  mstep Hmake. clear Hmake.
  rewrite (bind_Normal _ _ _ _ _
             (set_own_writable invoke P oP "actions" a ea ca (VObj wa) s2
                (Hkeep2 _ _ HP) Hactions)).
  set (oPa := with_props oP
                (<["actions" := DData (VObj wa) true ea ca]> (obj_props oP))).
  set (s3 := set_heap (<[P := oPa]> (st_heap s2)) s2).
  (* ObjectTypeProto.views = function(viewArgs) ... *)
  destruct (make_function_spec (ViewsWrapper v) "" 1 s3)
    as (wv & s4 & Hmake & Hwv & Hkeep4 & Hcode_v & Htrace4).
  mstep Hmake. clear Hmake.
  assert (HP4 : st_heap s4 !! P = Some oPa).
  { apply Hkeep4. cbn. apply lookup_insert_eq. }
  assert (Hviews_a : obj_props oPa !! "views" = Some (DData v true ev cv)).
  { cbn. by rewrite lookup_insert_ne. }
  rewrite (bind_Normal _ _ _ _ _
             (set_own_writable invoke P oPa "views" v ev cv (VObj wv) s4
                HP4 Hviews_a)).
  set (oPv := with_props oPa
                (<["views" := DData (VObj wv) true ev cv]> (obj_props oPa))).
  set (s5 := set_heap (<[P := oPv]> (st_heap s4)) s4).
  (* ObjectTypeProto.createStore = function(data = undefined) ... *)
  destruct (make_function_spec CreateStore "" 0 s5)
    as (wc & s6 & Hmake & Hwc & Hkeep6 & Hcode_c & Htrace6).
  mstep Hmake. clear Hmake.
  assert (HP6 : st_heap s6 !! P = Some oPv).
  { apply Hkeep6. cbn. apply lookup_insert_eq. }
  assert (Hkeep : forall l o, l <> P ->
            st_heap s !! l = Some o -> st_heap s6 !! l = Some o).
  { intros l o Hne Hl. apply Hkeep6. cbn. rewrite lookup_insert_ne by done.
    apply Hkeep4. cbn. rewrite lookup_insert_ne by done. by apply Hkeep2. }
  assert (Hnone_v : obj_props oPv !! "createStore" = None).
  { cbn. by rewrite !lookup_insert_ne. }
  assert (Hchain6 : obj_proto oPv = None
            \/ exists pp, obj_proto oPv = Some pp
                 /\ find_in_chain (st_heap s6) pp "createStore" = NotFound).
  { destruct Hchain as [Hp | (pp & n & Hp & Hsize & Hfind)]; [by left|].
    right. exists pp. split; [done|].
    assert (Hagree : agree_on "createStore" (st_heap s) (st_heap s6)).
    { intros l o Hl. destruct (decide (l = P)) as [->|Hne].
      - exists oPv. split; [done|]. rewrite Hnone_v.
        assert (o = oP) by congruence. by subst o.
      - exists o. split; [by apply Hkeep|done]. }
    apply (find_from_NotFound_stable _ _ _ n Hagree); [|done].
    pose proof (agree_on_size _ _ _ Hagree). lia. }
  rewrite (bind_Normal _ _ _ _ _
             (set_create invoke P oPv "createStore" (VObj wc) s6
                HP6 Hnone_v Hext Hchain6)).
  exists wa, wv, wc. eexists. split; [reflexivity|].
  assert (Hne_a : wa <> P) by (intros ->; congruence).
  assert (Hne_v : wv <> P).
  { intros ->. cbn in Hwv. by rewrite lookup_insert_eq in Hwv. }
  assert (Hne_c : wc <> P).
  { intros ->. cbn in Hwc. by rewrite lookup_insert_eq in Hwc. }
  apply code_of_Some in Hcode_a as (oa & Hoa & Hca).
  apply code_of_Some in Hcode_v as (ov & Hov & Hcv).
  apply code_of_Some in Hcode_c as (oc & Hoc & Hcc).
  split.
  { cbn. rewrite Htrace6. unfold s5. cbn. rewrite Htrace4. unfold s3. cbn.
    exact Htrace2. }
  split; [cbn; apply lookup_insert_eq|].
  split; [|split; [|split]].
  - intros l o Hne Hl. cbn. rewrite lookup_insert_ne by done. by apply Hkeep.
  - apply code_of_Some. exists oa. split; [|done].
    cbn. rewrite lookup_insert_ne by done. apply Hkeep6. cbn.
    rewrite lookup_insert_ne by done. apply Hkeep4. cbn.
    by rewrite lookup_insert_ne.
  - apply code_of_Some. exists ov. split; [|done].
    cbn. rewrite lookup_insert_ne by done. apply Hkeep6. cbn.
    by rewrite lookup_insert_ne.
  - apply code_of_Some. exists oc. split; [|done].
    cbn. by rewrite lookup_insert_ne.
Qed.

Lemma call_actions_wrapper H fuel w actions this args s :
  code_of s (VObj w) = Some (ActionsWrapper actions) ->
  call H (S fuel) (VObj w) this args s
  = actionsWrapper (call H fuel) actions this args s.
Proof.
  cbn. destruct (st_heap s !! w) as [o|] eqn:Hw; [|done]. intros [= Hcode].
  unfold bind at 1. unfold lookup_object. by rewrite Hw, Hcode.
Qed.

Lemma call_views_wrapper H fuel w views this args s :
  code_of s (VObj w) = Some (ViewsWrapper views) ->
  call H (S fuel) (VObj w) this args s
  = viewsWrapper (call H fuel) views this args s.
Proof.
  cbn. destruct (st_heap s !! w) as [o|] eqn:Hw; [|done]. intros [= Hcode].
  unfold bind at 1. unfold lookup_object. by rewrite Hw, Hcode.
Qed.

(** What a wrapper does with the entry point it closes over: it makes the
    curried binder for its argument and enters the original once, with the
    caller's [this] and that binder. *)
Lemma wrapper_forwards H fuel original oo id ctor this provider s :
  st_heap s !! original = Some oo ->
  obj_code oo = UserCode id ctor ->
  exists g s_g,
    selfless (call H (S fuel)) [provider] s = Normal (VObj g) s_g
    /\ st_trace s_g = st_trace s
    /\ actionsWrapper (call H (S fuel)) (VObj original) this [provider] s
       = run_host (host_call H id this [VObj g] (st_heap s_g))
           (log (EvCall original this [VObj g]) s_g)
    /\ viewsWrapper (call H (S fuel)) (VObj original) this [provider] s
       = run_host (host_call H id this [VObj g] (st_heap s_g))
           (log (EvCall original this [VObj g]) s_g).
Proof.
  intros Ho Hcode.
  destruct (make_function_spec (SelflessCurry provider) "selflessCurry" 1 s)
    as (g & s_g & Hmake & _ & Hkeep & _ & Htrace).
  exists g, s_g. split; [exact Hmake|]. split; [exact Htrace|].
  unfold actionsWrapper, viewsWrapper. cbn [arg nth].
  rewrite !(bind_Normal _ _ _ _ _ Hmake).
  by rewrite (call_user H fuel original oo id ctor _ _ s_g (Hkeep _ _ Ho) Hcode).
Qed.

(** C8. On a model builder that has not been patched (its prototype is
    extensible, holds [actions] and [views] as writable properties, and
    [createStore] is nowhere on its chain) the patch installs one wrapper
    around each original entry point and [createStore]; applied again, it
    finds [createStore] and returns at once, leaving the state as it is,
    so the entry points stay wrapped once.  A call of a wrapper enters the
    original entry point once, with the caller's [this] and the curried
    binder of its argument. *)
Theorem hackObjectTypePrototype_idempotent (H : host) (fuel : nat)
    (invoke : jsval -> jsval -> list jsval -> M jsval) (s : state)
    (x P : loc) (ox oP : object) (a v : jsval) (ea ca ev cv : bool) :
  st_heap s !! x = Some ox ->
  obj_proto ox = Some P ->
  st_heap s !! P = Some oP ->
  obj_extensible oP = true ->
  obj_props oP !! "actions" = Some (DData a true ea ca) ->
  obj_props oP !! "views" = Some (DData v true ev cv) ->
  find_in_chain (st_heap s) x "createStore" = NotFound ->
  exists wa wv wc s1,
    hackObjectTypePrototype invoke (VObj x) s = Normal VUndefined s1
    /\ hackObjectTypePrototype invoke (VObj x) s1 = Normal VUndefined s1
    /\ st_trace s1 = st_trace s
    /\ (exists oP1, st_heap s1 !! P = Some oP1
          /\ obj_props oP1 !! "actions" = Some (DData (VObj wa) true ea ca)
          /\ obj_props oP1 !! "views" = Some (DData (VObj wv) true ev cv)
          /\ obj_props oP1 !! "createStore"
             = Some (DData (VObj wc) true true true))
    /\ code_of s1 (VObj wa) = Some (ActionsWrapper a)
    /\ code_of s1 (VObj wv) = Some (ViewsWrapper v)
    /\ code_of s1 (VObj wc) = Some CreateStore
    /\ (forall s' original oo id ctor this provider,
          st_heap s' !! original = Some oo ->
          obj_code oo = UserCode id ctor ->
          exists g s_g,
            selfless (call H (S fuel)) [provider] s' = Normal (VObj g) s_g
            /\ st_trace s_g = st_trace s'
            /\ (a = VObj original ->
                code_of s' (VObj wa) = Some (ActionsWrapper a) ->
                call H (S (S fuel)) (VObj wa) this [provider] s'
                = run_host (host_call H id this [VObj g] (st_heap s_g))
                    (log (EvCall original this [VObj g]) s_g))
            /\ (v = VObj original ->
                code_of s' (VObj wv) = Some (ViewsWrapper v) ->
                call H (S (S fuel)) (VObj wv) this [provider] s'
                = run_host (host_call H id this [VObj g] (st_heap s_g))
                    (log (EvCall original this [VObj g]) s_g))).
Proof.
  intros Hx Hproto HP Hext Hactions Hviews Hfresh.
  destruct (hack_run invoke s x P ox oP a v ea ca ev cv
              Hx Hproto HP Hext Hactions Hviews Hfresh)
    as (wa & wv & wc & s1 & Hrun & Htrace & HP1 & Hkeep & Hca & Hcv & Hcc).
  destruct (unpatched_chain _ _ _ _ _ Hx Hproto HP Hfresh) as (Hnone & _ & _).
  exists wa, wv, wc, s1. split; [exact Hrun|]. split; [|split; [exact Htrace|]].
  - unfold hackObjectTypePrototype.
    rewrite (bind_Normal _ _ s1 true s1); [done|].
    unfold has_property, find_in_chain.
    destruct (size_heap_pos _ _ _ HP1) as [n ->].
    assert (Hcs : forall m, find_from (S m) (st_heap s1) P "createStore"
                            = Found (DData (VObj wc) true true true)).
    { intros m. apply (find_from_own _ _ _ _ _ _ HP1), lookup_insert_eq. }
    destruct (decide (x = P)) as [->|Hne].
    + by rewrite Hcs.
    + by rewrite (find_from_step _ _ _ _ _ _ (Hkeep x ox Hne Hx) Hnone Hproto), Hcs.
  - split; [|split; [exact Hca|split; [exact Hcv|split; [exact Hcc|]]]].
    + eexists. split; [exact HP1|]. unfold with_props. cbn [obj_props].
      split; [|split].
      * do 2 (rewrite lookup_insert_ne by done). apply lookup_insert_eq.
      * rewrite lookup_insert_ne by done. apply lookup_insert_eq.
      * apply lookup_insert_eq.
    + intros s' original oo id ctor this provider Ho Hcode.
      destruct (wrapper_forwards H fuel original oo id ctor this provider s'
                  Ho Hcode) as (g & s_g & Hmake & Htr & Hwa & Hwv).
      exists g, s_g. split; [exact Hmake|]. split; [exact Htr|]. split.
      * intros -> Hw. by rewrite (call_actions_wrapper _ _ _ _ _ _ _ Hw).
      * intros -> Hw. by rewrite (call_views_wrapper _ _ _ _ _ _ _ Hw).
Qed.

Lemma hackObjectTypePrototype_idempotent_witness :
  exists s1,
    hackObjectTypePrototype (call Example.user 1) (VObj 23) Example.start
    = Normal VUndefined s1
    /\ hackObjectTypePrototype (call Example.user 1) (VObj 23) s1
       = Normal VUndefined s1
    /\ st_trace s1 = [].
Proof.
  destruct (hackObjectTypePrototype_idempotent Example.user 0
              (call Example.user 1) Example.start 23 20
              (ordinary (Some 20) ∅)
              (ordinary (Some ObjectPrototype)
                 (<["actions" := DData (VObj 21) true false true]>
                    {["views" := DData (VObj 22) true false true]}))
              (VObj 21) (VObj 22) false true false true
              eq_refl eq_refl eq_refl eq_refl eq_refl eq_refl eq_refl)
    as (wa & wv & wc & s1 & Hfirst & Hsecond & Htrace & _).
  exists s1. by repeat split.
Defined.

(** * Further properties of the code *)

(** ** isPlainObject and getOwnPrototypeNames *)

(** X1. [isPlainObject] never throws and changes nothing; it answers
    [true] exactly on the objects that are not functions and whose
    prototype is Object.prototype or null, so [false] on every primitive, on
    [null], on every function and class, and on every instance of a class. *)
Theorem isPlainObject_decides (value : jsval) (s : state) :
  (forall l, value = VObj l -> is_Some (st_heap s !! l)) ->
  exists b,
    isPlainObject value s = Normal b s
    /\ (b = true <-> plain_record (st_heap s) value).
Proof.
  intros Hheap.
  destruct (isPlainObject_outcome value s) as [[b Hb] | Hstuck].
  - exists b. split; [exact Hb|]. split.
    + intros ->. by apply (isPlainObject_inv _ _ _ _ Hb).
    + intros Hplain. apply isPlainObject_plain in Hplain. congruence.
  - exfalso. destruct value as [| | | | |l];
      try (unfold isPlainObject, strict_eq, typeof, ret, bind in Hstuck;
           cbn in Hstuck; discriminate).
    destruct (Hheap l eq_refl) as [o Hl].
    by rewrite (isPlainObject_object l o s Hl) in Hstuck.
Qed.

Lemma isPlainObject_decides_witness :
  exists b,
    isPlainObject (VObj 10) Example.start = Normal b Example.start
    /\ (b = true <-> plain_record Example.heap (VObj 10)).
Proof.
  apply (isPlainObject_decides (VObj 10) Example.start).
  intros l [= <-]. eexists. reflexivity.
Defined.

(** X2. On an object, [getOwnPrototypeNames] returns, without repetition,
    exactly the names of its own properties that are not native names,
    enumerable or not, and changes nothing. *)
Theorem getOwnPrototypeNames_lists (s : state) (l : loc) (o : object) :
  st_heap s !! l = Some o ->
  exists names,
    getOwnPrototypeNames (VObj l) s = Normal names s
    /\ NoDup names
    /\ forall k, k ∈ names
         <-> is_Some (obj_props o !! k) /\ ~ In k NATIVE_PROPS_NON_ENUMERABLE.
Proof.
  intros Hl.
  exists (List.filter nameIsNotNative (map_to_list (obj_props o)).*1).
  split; [|split].
  - unfold getOwnPrototypeNames, Object_getOwnPropertyNames.
    erewrite bind_Normal; [reflexivity|].
    erewrite bind_Normal; [reflexivity|]. by apply own_properties_object.
  - apply NoDup_ListNoDup, List.NoDup_filter, NoDup_ListNoDup,
      NoDup_fst_map_to_list.
  - intros k. rewrite own_names_spec, nameIsNotNative_iff. tauto.
Qed.

Lemma getOwnPrototypeNames_lists_witness :
  exists names,
    getOwnPrototypeNames (VObj 11) Example.start = Normal names Example.start
    /\ NoDup names
    /\ forall k, k ∈ names
         <-> is_Some (obj_props Example.class_prototype !! k)
             /\ ~ In k NATIVE_PROPS_NON_ENUMERABLE.
Proof.
  apply (getOwnPrototypeNames_lists Example.start 11 Example.class_prototype).
  reflexivity.
Defined.

(** ** The flattener on every input *)

(** X3. [toBlankObj] throws, a TypeError, exactly on [undefined] and
    [null], where [getOwnPrototypeNames] throws too; on every other value
    it returns a new object.  However it ends, it has run no user code: a
    getter of the input is copied, never called. *)
Theorem toBlankObj_throws_only_on_nullish (obj : jsval) (s : state) :
  (forall l, obj = VObj l -> is_Some (st_heap s !! l)) ->
  (forall t, outcome_trace (toBlankObj obj s) = Some t -> t = st_trace s)
  /\ (((obj = VUndefined \/ obj = VNull)
       /\ getOwnPrototypeNames obj s = Abrupt TypeError s
       /\ exists s', toBlankObj obj s = Abrupt TypeError s')
      \/ (obj <> VUndefined /\ obj <> VNull
          /\ exists b s', toBlankObj obj s = Normal (VObj b) s'
                          /\ st_heap s !! b = None)).
Proof.
  intros Hheap. split; [intros t; apply toBlankObj_trace|].
  assert (Hreturns : forall props, own_properties obj s = Normal props s ->
            exists b s', toBlankObj obj s = Normal (VObj b) s'
                         /\ st_heap s !! b = None).
  { intros props Hread.
    destruct (toBlankObj_returns obj props s Hread) as (r & Hrun & _).
    eexists _, _. split; [exact Hrun|]. apply fresh_loc_None. }
  destruct obj as [| | b | n | str | l].
  - left. split; [by left|]. split; [reflexivity|]. eexists. reflexivity.
  - left. split; [by right|]. split; [reflexivity|]. eexists. reflexivity.
  - right. split; [done|]. split; [done|]. by apply (Hreturns ∅).
  - right. split; [done|]. split; [done|]. by apply (Hreturns ∅).
  - right. split; [done|]. split; [done|].
    by apply (Hreturns (string_own_props str)).
  - right. split; [done|]. split; [done|].
    destruct (Hheap l eq_refl) as [o Hl].
    apply (Hreturns (obj_props o)). by apply own_properties_object.
Qed.

Lemma toBlankObj_throws_only_on_nullish_witness :
  (forall t, outcome_trace (toBlankObj (VObj 11) Example.start) = Some t ->
             t = [])
  /\ (((VObj 11 = VUndefined \/ VObj 11 = VNull)
       /\ getOwnPrototypeNames (VObj 11) Example.start
          = Abrupt TypeError Example.start
       /\ exists s', toBlankObj (VObj 11) Example.start = Abrupt TypeError s')
      \/ (VObj 11 <> VUndefined /\ VObj 11 <> VNull
          /\ exists b s', toBlankObj (VObj 11) Example.start = Normal (VObj b) s'
                          /\ Example.heap !! b = None)).
Proof.
  apply (toBlankObj_throws_only_on_nullish (VObj 11) Example.start).
  intros l [= <-]. eexists. reflexivity.
Defined.

Lemma set_enumerable_idemp e d :
  set_enumerable e (set_enumerable e d) = set_enumerable e d.
Proof. by destruct d. Qed.

(** X4. Every call of [toBlankObj] makes an object of its own: two calls
    on the same object return two different objects with the same
    properties, and the second call leaves the first result as it was. *)
Theorem toBlankObj_fresh_each_time (s : state) (l : loc) (o : object) :
  st_heap s !! l = Some o ->
  exists b1 s1 b2 s2 r1 r2,
    toBlankObj (VObj l) s = Normal (VObj b1) s1
    /\ toBlankObj (VObj l) s1 = Normal (VObj b2) s2
    /\ b1 <> b2
    /\ st_heap s1 !! b1 = Some r1
    /\ st_heap s2 !! b1 = Some r1
    /\ st_heap s2 !! b2 = Some r2
    /\ obj_props r1 = obj_props r2.
Proof.
  intros Hl.
  destruct (toBlankObj_returns (VObj l) (obj_props o) s
              (own_properties_object l o s Hl)) as (r1 & Hrun1 & _ & _ & _ & Hlook1).
  set (b1 := fresh_loc (st_heap s)) in *.
  set (s1 := set_heap (<[b1 := r1]> (st_heap s)) s) in *.
  assert (Hl1 : st_heap s1 !! l = Some o).
  { cbn. rewrite lookup_insert_ne; [done|]. symmetry. by eapply fresh_loc_ne. }
  assert (Hb1 : st_heap s1 !! b1 = Some r1) by (cbn; apply lookup_insert_eq).
  destruct (toBlankObj_returns (VObj l) (obj_props o) s1
              (own_properties_object l o s1 Hl1)) as (r2 & Hrun2 & _ & _ & _ & Hlook2).
  set (b2 := fresh_loc (st_heap s1)) in *.
  assert (Hne : b1 <> b2) by (by eapply fresh_loc_ne).
  exists b1, s1, b2, (set_heap (<[b2 := r2]> (st_heap s1)) s1), r1, r2.
  split; [exact Hrun1|]. split; [exact Hrun2|]. split; [exact Hne|].
  split; [exact Hb1|]. split; [|split].
  - cbn. by rewrite lookup_insert_ne, lookup_insert_eq.
  - cbn. apply lookup_insert_eq.
  - apply map_eq. intros k. by rewrite Hlook1, Hlook2.
Qed.

Lemma toBlankObj_fresh_each_time_witness :
  exists b1 s1 b2 s2 r1 r2,
    toBlankObj (VObj 11) Example.start = Normal (VObj b1) s1
    /\ toBlankObj (VObj 11) s1 = Normal (VObj b2) s2
    /\ b1 <> b2
    /\ st_heap s1 !! b1 = Some r1
    /\ st_heap s2 !! b1 = Some r1
    /\ st_heap s2 !! b2 = Some r2
    /\ obj_props r1 = obj_props r2.
Proof.
  apply (toBlankObj_fresh_each_time Example.start 11 Example.class_prototype).
  reflexivity.
Defined.

(** X5. Flattening is idempotent on the properties: [toBlankObj] applied to
    a result of [toBlankObj] returns another object with exactly the same
    properties. *)
Theorem toBlankObj_twice_same_properties (s : state) (l : loc) (o : object) :
  st_heap s !! l = Some o ->
  exists b1 s1 b2 s2 r1 r2,
    toBlankObj (VObj l) s = Normal (VObj b1) s1
    /\ toBlankObj (VObj b1) s1 = Normal (VObj b2) s2
    /\ b1 <> b2
    /\ st_heap s2 !! b1 = Some r1
    /\ st_heap s2 !! b2 = Some r2
    /\ obj_props r2 = obj_props r1.
Proof.
  intros Hl.
  destruct (toBlankObj_returns (VObj l) (obj_props o) s
              (own_properties_object l o s Hl)) as (r1 & Hrun1 & _ & _ & _ & Hlook1).
  set (b1 := fresh_loc (st_heap s)) in *.
  set (s1 := set_heap (<[b1 := r1]> (st_heap s)) s) in *.
  assert (Hb1 : st_heap s1 !! b1 = Some r1) by (cbn; apply lookup_insert_eq).
  destruct (toBlankObj_returns (VObj b1) (obj_props r1) s1
              (own_properties_object b1 r1 s1 Hb1)) as (r2 & Hrun2 & _ & _ & _ & Hlook2).
  set (b2 := fresh_loc (st_heap s1)) in *.
  assert (Hne : b1 <> b2) by (by eapply fresh_loc_ne).
  exists b1, s1, b2, (set_heap (<[b2 := r2]> (st_heap s1)) s1), r1, r2.
  split; [exact Hrun1|]. split; [exact Hrun2|]. split; [exact Hne|].
  split; [|split].
  - cbn. by rewrite lookup_insert_ne, lookup_insert_eq.
  - cbn. apply lookup_insert_eq.
  - apply map_eq. intros k. rewrite Hlook2, Hlook1.
    destruct (nameIsNotNative k); [|done].
    destruct (obj_props o !! k) as [d|]; [|done]. cbn.
    by rewrite set_enumerable_idemp.
Qed.

Lemma toBlankObj_twice_same_properties_witness :
  exists b1 s1 b2 s2 r1 r2,
    toBlankObj (VObj 11) Example.start = Normal (VObj b1) s1
    /\ toBlankObj (VObj b1) s1 = Normal (VObj b2) s2
    /\ b1 <> b2
    /\ st_heap s2 !! b1 = Some r1
    /\ st_heap s2 !! b2 = Some r2
    /\ obj_props r2 = obj_props r1.
Proof.
  apply (toBlankObj_twice_same_properties Example.start 11
           Example.class_prototype).
  reflexivity.
Defined.

(** X6. On a prototype whose members are as class syntax defines them
    (configurable, methods writable), every property of the result has the
    shape an object literal gives the same member: a writable, enumerable,
    configurable data property, or an enumerable, configurable accessor. *)
Theorem toBlankObj_literal_shapes (s : state) (l : loc) (o : object) :
  st_heap s !! l = Some o ->
  (forall k d, obj_props o !! k = Some d ->
               ~ In k NATIVE_PROPS_NON_ENUMERABLE -> class_member d) ->
  exists b r s',
    toBlankObj (VObj l) s = Normal (VObj b) s'
    /\ st_heap s' !! b = Some r
    /\ forall k d', obj_props r !! k = Some d' ->
         desc_shape d' = DataShape true true true
         \/ desc_shape d' = AccessorShape true true.
Proof.
  intros Hl Hmembers.
  destruct (toBlankObj_returns (VObj l) (obj_props o) s
              (own_properties_object l o s Hl)) as (r & Hrun & _ & _ & _ & Hlook).
  eexists _, r, _. split; [exact Hrun|]. split; [cbn; apply lookup_insert_eq|].
  intros k d' Hk. rewrite Hlook in Hk.
  destruct (nameIsNotNative k) eqn:Hn; [|done].
  destruct (obj_props o !! k) as [d|] eqn:Hd; [|done].
  injection Hk as <-.
  destruct (Hmembers k d Hd) as [Hc Hw]; [by apply nameIsNotNative_iff|].
  destruct d as [v w e c | g st e c]; cbn in *; subst.
  - left. by destruct w.
  - by right.
Qed.

Lemma toBlankObj_literal_shapes_witness :
  exists b r s',
    toBlankObj (VObj 11) Example.start = Normal (VObj b) s'
    /\ st_heap s' !! b = Some r
    /\ forall k d', obj_props r !! k = Some d' ->
         desc_shape d' = DataShape true true true
         \/ desc_shape d' = AccessorShape true true.
Proof.
  apply (toBlankObj_literal_shapes Example.start 11 Example.class_prototype).
  - reflexivity.
  - intros k d Hk _. unfold Example.class_prototype in Hk. cbn in Hk.
    repeat (apply lookup_insert_Some in Hk as [[_ <-] | [_ Hk]];
            [split; [reflexivity | discriminate]|]).
    apply lookup_singleton_Some in Hk as [_ <-].
    split; [reflexivity | discriminate].
Defined.



(** X8. Primitives other than [undefined] and [null] are accepted without
    complaint: a boolean or a number gives an object without properties, and
    a string gives an object that shows the string's [length] as an
    enumerable, read-only property. *)
Theorem toBlankObj_on_primitives (s : state) :
  (forall v, (exists b, v = VBool b) \/ (exists n, v = VNum n) ->
     exists b s',
       toBlankObj v s = Normal (VObj b) s'
       /\ (obj_props <$> st_heap s' !! b) = Some ∅)
  /\ (forall str,
        exists b r s',
          toBlankObj (VStr str) s = Normal (VObj b) s'
          /\ st_heap s' !! b = Some r
          /\ obj_props r !! "length"
             = Some (DData (VNum (Z.of_nat (String.length str)))
                       false true false)).
Proof.
  split.
  - intros v Hv.
    assert (Hread : own_properties v s = Normal ∅ s).
    { by destruct Hv as [[b ->] | [n ->]]. }
    destruct (toBlankObj_returns v ∅ s Hread) as (r & Hrun & _ & _ & _ & Hlook).
    eexists _, _. split; [exact Hrun|].
    cbn. rewrite lookup_insert_eq. cbn. f_equal.
    apply map_eq. intros k. rewrite Hlook, !lookup_empty.
    by destruct (nameIsNotNative k).
  - intros str.
    destruct (toBlankObj_returns (VStr str) (string_own_props str) s eq_refl)
      as (r & Hrun & _ & _ & _ & Hlook).
    eexists _, r, _. split; [exact Hrun|].
    split; [cbn; apply lookup_insert_eq|].
    rewrite Hlook. change (nameIsNotNative "length") with true. cbv iota.
    unfold string_own_props. by rewrite lookup_insert_eq.
Qed.

(** ** The normalizer on classes and on what is not a class *)

(** X9. On a class (a function holding its prototype object in an own data
    property), [thisless] returns a new object without prototype that has
    the non-native own properties of the class's prototype object, all
    enumerable, and no [constructor]; the class and its prototype object are
    unchanged and no user code runs. *)
Theorem thisless_flattens_class
    (invoke : jsval -> jsval -> list jsval -> M jsval) (s : state)
    (c p : loc) (oc op : object) (w e cf : bool) :
  st_heap s !! c = Some oc ->
  obj_code oc <> NotCallable ->
  obj_props oc !! "prototype" = Some (DData (VObj p) w e cf) ->
  st_heap s !! p = Some op ->
  exists b r s',
    thisless invoke (VObj c) s = Normal (VObj b) s'
    /\ st_heap s !! b = None
    /\ st_heap s' !! b = Some r
    /\ obj_proto r = None
    /\ (forall k, obj_props r !! k =
          if nameIsNotNative k then set_enumerable true <$> obj_props op !! k
          else None)
    /\ obj_props r !! "constructor" = None
    /\ st_heap s' !! c = Some oc
    /\ st_heap s' !! p = Some op
    /\ st_trace s' = st_trace s.
Proof.
  intros Hc Hfun Hproto Hp.
  destruct (toBlankObj_returns (VObj p) (obj_props op) s
              (own_properties_object p op s Hp))
    as (r & Hrun & Hnull & _ & _ & Hlook).
  exists (fresh_loc (st_heap s)), r,
    (set_heap (<[fresh_loc (st_heap s) := r]> (st_heap s)) s).
  split; [|split; [apply fresh_loc_None|split; [cbn; apply lookup_insert_eq|]]].
  - unfold thisless.
    assert (Hplain : isPlainObject (VObj c) s = Normal false s).
    { rewrite (isPlainObject_object c oc s Hc). by destruct (obj_code oc). }
    mstep Hplain. cbn [negb].
    by mstep (get_own_data invoke c oc "prototype" (VObj p) w e cf s Hc Hproto).
  - split; [exact Hnull|]. split; [exact Hlook|]. split; [by rewrite Hlook|].
    split; [|split; [|done]]; cbn; rewrite lookup_insert_ne; try done;
      symmetry; by eapply fresh_loc_ne.
Qed.

Lemma thisless_flattens_class_witness :
  exists b r s',
    thisless (call Example.user 1) (VObj 10) Example.start = Normal (VObj b) s'
    /\ Example.heap !! b = None
    /\ st_heap s' !! b = Some r
    /\ obj_proto r = None
    /\ (forall k, obj_props r !! k =
          if nameIsNotNative k
          then set_enumerable true <$> obj_props Example.class_prototype !! k
          else None)
    /\ obj_props r !! "constructor" = None
    /\ st_heap s' !! 10
       = Some (Example.function_object 1 true
                 {["prototype" := DData (VObj 11) false false false]})
    /\ st_heap s' !! 11 = Some Example.class_prototype
    /\ st_trace s' = [].
Proof.
  apply (thisless_flattens_class (call Example.user 1) Example.start 10 11
           (Example.function_object 1 true
              {["prototype" := DData (VObj 11) false false false]})
           Example.class_prototype false false false);
    [reflexivity | discriminate | reflexivity | reflexivity].
Defined.

(** X10. A value that is not a plain record and has no [prototype]
    property to read (an instance of a class, a number, [undefined],
    [null]) makes [thisless] throw a TypeError; no user code runs and every
    object is left as it was. *)
Theorem thisless_throws_without_prototype
    (invoke : jsval -> jsval -> list jsval -> M jsval) (v : jsval)
    (s : state) :
  isPlainObject v s = Normal false s ->
  find_property (st_heap s) v "prototype" = NotFound ->
  exists s',
    thisless invoke v s = Abrupt TypeError s'
    /\ st_trace s' = st_trace s
    /\ forall l o, st_heap s !! l = Some o -> st_heap s' !! l = Some o.
Proof.
  intros Hplain Hfind. unfold thisless. mstep Hplain. cbn [negb].
  assert (Hget : get invoke v "prototype" s = Abrupt TypeError s
                 \/ get invoke v "prototype" s = Normal VUndefined s).
  { unfold get. destruct v; try (by left); right; by rewrite Hfind. }
  destruct Hget as [Hget | Hget]; mstep Hget.
  - by exists s.
  - eexists. split; [reflexivity|]. split; [done|].
    intros l o Hl. cbn. rewrite lookup_insert_ne; [done|].
    symmetry. by eapply fresh_loc_ne.
Qed.

Lemma thisless_throws_without_prototype_witness :
  exists s',
    thisless (call Example.user 1) (VObj 23) Example.start = Abrupt TypeError s'
    /\ st_trace s' = []
    /\ forall l o, Example.heap !! l = Some o -> st_heap s' !! l = Some o.
Proof.
  apply (thisless_throws_without_prototype (call Example.user 1) (VObj 23)
           Example.start); vm_compute; reflexivity.
Defined.

(** ** The deferred binder and its provider *)

Lemma call_not_callable H fuel fn this args s :
  not_callable s fn ->
  call H (S fuel) fn this args s = Abrupt TypeError s.
Proof.
  destruct fn as [| | | | |l]; try done. cbn.
  destruct (st_heap s !! l) as [o|] eqn:Hl; [|done]. intros [= Hcode].
  unfold bind, lookup_object. by rewrite Hl, Hcode.
Qed.

(** X11. [selfless] does not check its provider.  With two arguments, or
    with none, a provider that cannot be called makes it throw a TypeError
    at once, leaving the state as it was; with one argument it returns the
    curried function all the same, and the TypeError comes when that
    function is called. *)
Theorem selfless_does_not_check_provider (H : host) (fuel : nat)
    (fn c : jsval) (s : state) :
  not_callable s fn ->
  selfless (call H (S fuel)) [fn; c] s = Abrupt TypeError s
  /\ selfless (call H (S fuel)) [] s = Abrupt TypeError s
  /\ exists g s_g,
       selfless (call H (S fuel)) [fn] s = Normal (VObj g) s_g
       /\ forall this,
            call H (S (S fuel)) (VObj g) this [c] s_g = Abrupt TypeError s_g.
Proof.
  intros Hfn. split; [|split].
  - unfold selfless. cbn [List.length Nat.eqb arg nth].
    by mstep (call_not_callable H fuel fn VUndefined [c] s Hfn).
  - unfold selfless. cbn [List.length Nat.eqb arg nth].
    by mstep (call_not_callable H fuel VUndefined VUndefined [VUndefined] s I).
  - destruct (make_function_spec (SelflessCurry fn) "selflessCurry" 1 s)
      as (g & s_g & Hmake & _ & Hkeep & Hcode & _).
    exists g, s_g. split; [exact Hmake|]. intros this.
    rewrite (call_curry _ _ _ _ _ _ _ Hcode). unfold selflessCurry.
    cbn [arg nth].
    assert (Hfn' : not_callable s_g fn).
    { destruct fn as [| | | | |l]; try done.
      apply code_of_Some in Hfn as (o & Hl & Ho).
      apply code_of_Some. exists o. split; [by apply Hkeep|done]. }
    by mstep (call_not_callable H fuel fn VUndefined [c] s_g Hfn').
Qed.

Lemma selfless_does_not_check_provider_witness :
  selfless (call Example.user 1) [VNum 42; VObj 15] Example.start
  = Abrupt TypeError Example.start
  /\ selfless (call Example.user 1) [] Example.start
     = Abrupt TypeError Example.start
  /\ exists g s_g,
       selfless (call Example.user 1) [VNum 42] Example.start
       = Normal (VObj g) s_g
       /\ forall this,
            call Example.user 2 (VObj g) this [VObj 15] s_g
            = Abrupt TypeError s_g.
Proof.
  apply (selfless_does_not_check_provider Example.user 0 (VNum 42) (VObj 15)
           Example.start).
  exact I.
Defined.

(** X12. When the provider returns a plain record, [selfless] returns that
    record itself: the same reference, in the heap exactly as the provider
    left it, with nothing allocated and the provider entered once. *)
Theorem selfless_passes_plain_records (H : host) (fuel : nat) (lp : loc)
    (op : object) (id : nat) (ctor : bool) (c v : jsval) (s : state)
    (h' : gmap loc object) :
  st_heap s !! lp = Some op ->
  obj_code op = UserCode id ctor ->
  host_call H id VUndefined [c] (st_heap s) = HReturn v h' ->
  plain_record h' v ->
  selfless (call H (S fuel)) [VObj lp; c] s
  = Normal v (State h' (st_trace s ++ [EvCall lp VUndefined [c]])).
Proof.
  intros Hlp Hcode Hrun Hplain.
  unfold selfless. cbn [List.length Nat.eqb arg nth].
  assert (Hcall : call H (S fuel) (VObj lp) VUndefined [c] s
            = Normal v (State h' (st_trace s ++ [EvCall lp VUndefined [c]]))).
  { rewrite (call_user H fuel lp op id ctor _ _ s Hlp Hcode). cbn.
    by rewrite Hrun. }
  mstep Hcall. by apply thisless_plain.
Qed.

Lemma selfless_passes_plain_records_witness :
  selfless (call Scenario.user 1) [VObj 14; VObj 15] Scenario.start
  = Normal (VObj 15)
      (State Scenario.heap [EvCall 14 VUndefined [VObj 15]]).
Proof.
  apply (selfless_passes_plain_records Scenario.user 0 14
           (Example.function_object 4 false ∅) 4 false (VObj 15) (VObj 15)
           Scenario.start Scenario.heap); try reflexivity.
  exists 15, Example.context. repeat split; try reflexivity. by left.
Defined.

(** ** createStore *)







(** ** The integration patch at its edges *)

(** X15. The guard looks at nothing but the presence of [createStore]: a
    target that has such a property anywhere on its chain, whatever it is
    and wherever it came from, is left entirely alone. *)
Theorem hack_skips_when_createStore_present
    (invoke : jsval -> jsval -> list jsval -> M jsval) (x : loc)
    (d : descriptor) (s : state) :
  find_in_chain (st_heap s) x "createStore" = Found d ->
  hackObjectTypePrototype invoke (VObj x) s = Normal VUndefined s.
Proof.
  intros Hfound. unfold hackObjectTypePrototype.
  rewrite (bind_Normal _ _ s true s); [done|].
  unfold has_property. by rewrite Hfound.
Qed.

(** X16. A target that is not an object, and an object without prototype
    that has no [createStore], make the patch throw a TypeError before
    anything is changed. *)
Theorem hack_rejects_bad_targets
    (invoke : jsval -> jsval -> list jsval -> M jsval) (s : state) :
  (forall x, (forall l, x <> VObj l) ->
     hackObjectTypePrototype invoke x s = Abrupt TypeError s)
  /\ (forall l o,
        st_heap s !! l = Some o ->
        obj_proto o = None ->
        obj_props o !! "createStore" = None ->
        hackObjectTypePrototype invoke (VObj l) s = Abrupt TypeError s).
Proof.
  split.
  - intros x Hx. destruct x as [| | | | |l]; try reflexivity.
    by destruct (Hx l).
  - intros l o Hl Hproto Hnone. unfold hackObjectTypePrototype.
    rewrite (bind_Normal _ _ s false s).
    + cbv iota. rewrite (bind_Normal _ _ s VNull s); [reflexivity|].
      unfold Object_getPrototypeOf, lookup_object, bind. by rewrite Hl, Hproto.
    + unfold has_property, find_in_chain. cbn. by rewrite Hl, Hnone, Hproto.
Qed.

Lemma self_loop_never_NotFound (h : gmap loc object) x ox key :
  h !! x = Some ox -> obj_proto ox = Some x ->
  forall n, find_from n h x key <> NotFound.
Proof.
  intros Hx Hloop. induction n as [|n IH]; [done|].
  cbn. rewrite Hx. destruct (obj_props ox !! key); [done|]. by rewrite Hloop.
Qed.

(** X17. The patch touches the prototype and nothing else: the target,
    the original entry points and every other object that existed are
    unchanged, the prototype keeps its own prototype, its flags and every
    property other than [actions], [views] and [createStore], no user code
    runs, and afterwards the target sees [createStore] through its chain. *)
Theorem hack_touches_only_prototype
    (invoke : jsval -> jsval -> list jsval -> M jsval) (s : state)
    (x P : loc) (ox oP : object) (a v : jsval) (ea ca ev cv : bool) :
  st_heap s !! x = Some ox ->
  obj_proto ox = Some P ->
  st_heap s !! P = Some oP ->
  obj_extensible oP = true ->
  obj_props oP !! "actions" = Some (DData a true ea ca) ->
  obj_props oP !! "views" = Some (DData v true ev cv) ->
  find_in_chain (st_heap s) x "createStore" = NotFound ->
  exists s1 oP1 wc,
    hackObjectTypePrototype invoke (VObj x) s = Normal VUndefined s1
    /\ st_trace s1 = st_trace s
    /\ st_heap s1 !! P = Some oP1
    /\ obj_proto oP1 = obj_proto oP
    /\ obj_extensible oP1 = obj_extensible oP
    /\ obj_code oP1 = obj_code oP
    /\ (forall k, k <> "actions" -> k <> "views" -> k <> "createStore" ->
          obj_props oP1 !! k = obj_props oP !! k)
    /\ (forall l o, l <> P -> st_heap s !! l = Some o -> st_heap s1 !! l = Some o)
    /\ st_heap s1 !! x = Some ox
    /\ find_in_chain (st_heap s1) x "createStore"
       = Found (DData (VObj wc) true true true)
    /\ code_of s1 (VObj wc) = Some CreateStore.
Proof.
  intros Hx Hproto HP Hext Hactions Hviews Hfresh.
  destruct (hack_run invoke s x P ox oP a v ea ca ev cv
              Hx Hproto HP Hext Hactions Hviews Hfresh)
    as (wa & wv & wc & s1 & Hrun & Htrace & HP1 & Hkeep & _ & _ & Hcc).
  destruct (unpatched_chain _ _ _ _ _ Hx Hproto HP Hfresh) as (Hnone & _ & _).
  assert (Hne : x <> P).
  { intros ->. assert (ox = oP) by congruence. subst ox.
    by apply (self_loop_never_NotFound _ _ _ "createStore" HP Hproto
                (S (size (st_heap s)))). }
  eexists s1, _, wc. split; [exact Hrun|]. split; [exact Htrace|].
  split; [exact HP1|]. split; [done|]. split; [done|]. split; [done|].
  split; [|split; [exact Hkeep|split; [by apply Hkeep|split; [|exact Hcc]]]].
  - intros k Ha Hv Hc. unfold with_props. cbn [obj_props].
    by do 3 (rewrite lookup_insert_ne by done).
  - unfold find_in_chain.
    destruct (size_heap_pos _ _ _ HP1) as [n ->].
    rewrite (find_from_step _ _ _ _ _ _ (Hkeep x ox Hne Hx) Hnone Hproto).
    apply (find_from_own _ _ _ _ _ _ HP1), lookup_insert_eq.
Qed.

Lemma hack_touches_only_prototype_witness :
  exists s1,
    hackObjectTypePrototype (call Example.user 1) (VObj 23) Example.start
    = Normal VUndefined s1
    /\ st_trace s1 = []
    /\ st_heap s1 !! 23 = Some (ordinary (Some 20) ∅)
    /\ (forall l o, l <> 20 -> Example.heap !! l = Some o ->
                    st_heap s1 !! l = Some o).
Proof.
  destruct (hack_touches_only_prototype (call Example.user 1) Example.start
              23 20 (ordinary (Some 20) ∅)
              (ordinary (Some ObjectPrototype)
                 (<["actions" := DData (VObj 21) true false true]>
                    {["views" := DData (VObj 22) true false true]}))
              (VObj 21) (VObj 22) false true false true
              eq_refl eq_refl eq_refl eq_refl eq_refl eq_refl eq_refl)
    as (s1 & oP1 & wc & Hrun & Htrace & _ & _ & _ & _ & _ & Hkeep & Hx & _).
  exists s1. by repeat split.
Defined.

Lemma set_refused invoke l o key v s :
  st_heap s !! l = Some o ->
  obj_props o !! key = None ->
  obj_extensible o = false ->
  (obj_proto o = None
   \/ exists p, obj_proto o = Some p
                /\ find_in_chain (st_heap s) p key = NotFound) ->
  set invoke (VObj l) key v s = Normal tt s.
Proof.
  intros Hl Hkey Hext Hchain. unfold set, lookup_object, bind.
  rewrite Hl, Hkey.
  destruct Hchain as [-> | (p & -> & ->)];
    unfold create_data_property; by rewrite Hext.
Qed.

(** One application on a model builder whose prototype is not extensible:
    [actions] and [views] are wrapped, the assignment of [createStore] is
    dropped, and the target still shows no [createStore]. *)
Lemma hack_run_sealed invoke s x P ox oP a v ea ca ev cv :
  st_heap s !! x = Some ox ->
  obj_proto ox = Some P ->
  st_heap s !! P = Some oP ->
  obj_extensible oP = false ->
  obj_props oP !! "actions" = Some (DData a true ea ca) ->
  obj_props oP !! "views" = Some (DData v true ev cv) ->
  find_in_chain (st_heap s) x "createStore" = NotFound ->
  exists wa wv s1 oP1,
    hackObjectTypePrototype invoke (VObj x) s = Normal VUndefined s1
    /\ st_trace s1 = st_trace s
    /\ st_heap s1 !! P = Some oP1
    /\ obj_extensible oP1 = false
    /\ obj_props oP1 !! "actions" = Some (DData (VObj wa) true ea ca)
    /\ obj_props oP1 !! "views" = Some (DData (VObj wv) true ev cv)
    /\ (forall l o, l <> P -> st_heap s !! l = Some o -> st_heap s1 !! l = Some o)
    /\ code_of s1 (VObj wa) = Some (ActionsWrapper a)
    /\ code_of s1 (VObj wv) = Some (ViewsWrapper v)
    /\ wa <> P /\ wv <> P
    /\ find_in_chain (st_heap s1) x "createStore" = NotFound.
Proof.
  intros Hx Hproto HP Hext Hactions Hviews Hfresh.
  destruct (unpatched_chain _ _ _ _ _ Hx Hproto HP Hfresh)
    as (_ & Hnone & Hchain).
  unfold hackObjectTypePrototype.
  rewrite (bind_Normal _ _ s false s)
    by (unfold has_property; by rewrite Hfresh).
  cbv iota.
  rewrite (bind_Normal _ _ s (VObj P) s)
    by (unfold Object_getPrototypeOf, lookup_object, bind; by rewrite Hx, Hproto).
  rewrite (bind_Normal _ _ s a s) by (by eapply get_own_data).
  rewrite (bind_Normal _ _ s v s) by (by eapply get_own_data).
  destruct (make_function_spec (ActionsWrapper a) "" 1 s)
    as (wa & s2 & Hmake & Hwa & Hkeep2 & Hcode_a & Htrace2).
  mstep Hmake. clear Hmake.
  rewrite (bind_Normal _ _ _ _ _
             (set_own_writable invoke P oP "actions" a ea ca (VObj wa) s2
                (Hkeep2 _ _ HP) Hactions)).
  set (oPa := with_props oP
                (<["actions" := DData (VObj wa) true ea ca]> (obj_props oP))).
  set (s3 := set_heap (<[P := oPa]> (st_heap s2)) s2).
  destruct (make_function_spec (ViewsWrapper v) "" 1 s3)
    as (wv & s4 & Hmake & Hwv & Hkeep4 & Hcode_v & Htrace4).
  mstep Hmake. clear Hmake.
  assert (HP4 : st_heap s4 !! P = Some oPa).
  { apply Hkeep4. cbn. apply lookup_insert_eq. }
  assert (Hviews_a : obj_props oPa !! "views" = Some (DData v true ev cv)).
  { cbn. by rewrite lookup_insert_ne. }
  rewrite (bind_Normal _ _ _ _ _
             (set_own_writable invoke P oPa "views" v ev cv (VObj wv) s4
                HP4 Hviews_a)).
  set (oPv := with_props oPa
                (<["views" := DData (VObj wv) true ev cv]> (obj_props oPa))).
  set (s5 := set_heap (<[P := oPv]> (st_heap s4)) s4).
  destruct (make_function_spec CreateStore "" 0 s5)
    as (wc & s6 & Hmake & Hwc & Hkeep6 & Hcode_c & Htrace6).
  mstep Hmake. clear Hmake.
  assert (HP6 : st_heap s6 !! P = Some oPv).
  { apply Hkeep6. cbn. apply lookup_insert_eq. }
  assert (Hkeep : forall l o, l <> P ->
            st_heap s !! l = Some o -> st_heap s6 !! l = Some o).
  { intros l o Hne Hl. apply Hkeep6. cbn. rewrite lookup_insert_ne by done.
    apply Hkeep4. cbn. rewrite lookup_insert_ne by done. by apply Hkeep2. }
  assert (Hnone_v : obj_props oPv !! "createStore" = None).
  { cbn. by rewrite !lookup_insert_ne. }
  assert (Hagree : agree_on "createStore" (st_heap s) (st_heap s6)).
  { intros l o Hl. destruct (decide (l = P)) as [->|Hne].
    - exists oPv. split; [done|]. rewrite Hnone_v.
      assert (o = oP) by congruence. by subst o.
    - exists o. split; [by apply Hkeep|done]. }
  pose proof (agree_on_size _ _ _ Hagree) as Hsize.
  assert (Hchain6 : obj_proto oPv = None
            \/ exists pp, obj_proto oPv = Some pp
                 /\ find_in_chain (st_heap s6) pp "createStore" = NotFound).
  { destruct Hchain as [Hp | (pp & n & Hp & Hn & Hfind)]; [by left|].
    right. exists pp. split; [done|].
    apply (find_from_NotFound_stable _ _ _ n Hagree); [lia|done]. }
  rewrite (bind_Normal _ _ _ _ _
             (set_refused invoke P oPv "createStore" (VObj wc) s6
                HP6 Hnone_v Hext Hchain6)).
  assert (Hne_a : wa <> P) by (intros ->; congruence).
  assert (Hne_v : wv <> P).
  { intros ->. cbn in Hwv. by rewrite lookup_insert_eq in Hwv. }
  apply code_of_Some in Hcode_a as (oa & Hoa & Hca).
  apply code_of_Some in Hcode_v as (ov & Hov & Hcv).
  exists wa, wv, s6, oPv. split; [reflexivity|]. split.
  { rewrite Htrace6. unfold s5. cbn. rewrite Htrace4. unfold s3. cbn.
    exact Htrace2. }
  split; [exact HP6|]. split; [exact Hext|]. split.
  { cbn. rewrite lookup_insert_ne by done. apply lookup_insert_eq. }
  split; [cbn; apply lookup_insert_eq|]. split; [exact Hkeep|].
  split; [|split; [|split; [done|split; [done|]]]].
  - apply code_of_Some. exists oa. split; [|done].
    apply Hkeep6. cbn. rewrite lookup_insert_ne by done.
    apply Hkeep4. cbn. by rewrite lookup_insert_ne.
  - apply code_of_Some. exists ov. split; [|done].
    apply Hkeep6. cbn. by rewrite lookup_insert_ne.
  - apply (find_from_NotFound_stable _ _ _ (S (size (st_heap s))) Hagree);
      [lia|done].
Qed.

Lemma hack_skips_when_createStore_present_witness :
  hackObjectTypePrototype (call Example.user 1) (VObj 23) Scenario.claimed
  = Normal VUndefined Scenario.claimed.
Proof.
  apply (hack_skips_when_createStore_present (call Example.user 1) 23
           (DData (VNum 0) true true true) Scenario.claimed).
  vm_compute. reflexivity.
Defined.

(** X18. The guard relies on the assignment of [createStore] taking
    effect.  On a model builder whose prototype is not extensible (its
    [actions] and [views] still writable) the assignment is dropped, the
    target shows no [createStore] after the patch, and a second application
    wraps again: [actions] and [views] end up as wrappers around the
    first wrappers. *)
Theorem hack_wraps_twice_on_sealed_prototype
    (invoke : jsval -> jsval -> list jsval -> M jsval) (s : state)
    (x P : loc) (ox oP : object) (a v : jsval) (ea ca ev cv : bool) :
  st_heap s !! x = Some ox ->
  obj_proto ox = Some P ->
  st_heap s !! P = Some oP ->
  obj_extensible oP = false ->
  obj_props oP !! "actions" = Some (DData a true ea ca) ->
  obj_props oP !! "views" = Some (DData v true ev cv) ->
  find_in_chain (st_heap s) x "createStore" = NotFound ->
  exists s1 s2 wa wa2 wv wv2 oP2,
    hackObjectTypePrototype invoke (VObj x) s = Normal VUndefined s1
    /\ hackObjectTypePrototype invoke (VObj x) s1 = Normal VUndefined s2
    /\ find_in_chain (st_heap s1) x "createStore" = NotFound
    /\ find_in_chain (st_heap s2) x "createStore" = NotFound
    /\ st_heap s2 !! P = Some oP2
    /\ obj_props oP2 !! "actions" = Some (DData (VObj wa2) true ea ca)
    /\ obj_props oP2 !! "views" = Some (DData (VObj wv2) true ev cv)
    /\ code_of s2 (VObj wa2) = Some (ActionsWrapper (VObj wa))
    /\ code_of s2 (VObj wa) = Some (ActionsWrapper a)
    /\ code_of s2 (VObj wv2) = Some (ViewsWrapper (VObj wv))
    /\ code_of s2 (VObj wv) = Some (ViewsWrapper v).
Proof.
  intros Hx Hproto HP Hext Hactions Hviews Hfresh.
  assert (Hne : x <> P).
  { intros ->. assert (ox = oP) by congruence. subst ox.
    by apply (self_loop_never_NotFound _ _ _ "createStore" HP Hproto
                (S (size (st_heap s)))). }
  destruct (hack_run_sealed invoke s x P ox oP a v ea ca ev cv
              Hx Hproto HP Hext Hactions Hviews Hfresh)
    as (wa & wv & s1 & oP1 & Hrun1 & _ & HP1 & Hext1 & Ha1 & Hv1 & Hkeep1
        & Hca & Hcv & Hne_a & Hne_v & Hfresh1).
  destruct (hack_run_sealed invoke s1 x P ox oP1 (VObj wa) (VObj wv)
              ea ca ev cv (Hkeep1 x ox Hne Hx) Hproto HP1 Hext1 Ha1 Hv1 Hfresh1)
    as (wa2 & wv2 & s2 & oP2 & Hrun2 & _ & HP2 & _ & Ha2 & Hv2 & Hkeep2
        & Hca2 & Hcv2 & _ & _ & Hfresh2).
  exists s1, s2, wa, wa2, wv, wv2, oP2.
  apply code_of_Some in Hca as (oa & Hoa & Hcode_a).
  apply code_of_Some in Hcv as (ov & Hov & Hcode_v).
  repeat (split; [done|]). split; [|split; [done|]].
  - apply code_of_Some. exists oa. split; [by apply Hkeep2|done].
  - apply code_of_Some. exists ov. split; [by apply Hkeep2|done].
Qed.

Lemma hack_wraps_twice_on_sealed_prototype_witness :
  exists s1 s2 wa wa2,
    hackObjectTypePrototype (call Example.user 1) (VObj 23) Scenario.sealed
    = Normal VUndefined s1
    /\ hackObjectTypePrototype (call Example.user 1) (VObj 23) s1
       = Normal VUndefined s2
    /\ code_of s2 (VObj wa2) = Some (ActionsWrapper (VObj wa))
    /\ code_of s2 (VObj wa) = Some (ActionsWrapper (VObj 21)).
Proof.
  destruct (hack_wraps_twice_on_sealed_prototype (call Example.user 1)
              Scenario.sealed 23 20 (ordinary (Some 20) ∅)
              (Scenario.builder_prototype false)
              (VObj 21) (VObj 22) false true false true
              eq_refl eq_refl eq_refl eq_refl eq_refl eq_refl eq_refl)
    as (s1 & s2 & wa & wa2 & wv & wv2 & oP2 & Hrun1 & Hrun2 & _ & _ & _ & _
        & _ & Hca2 & Hca & _).
  exists s1, s2, wa, wa2.
  split; [exact Hrun1|]. split; [exact Hrun2|]. split; [exact Hca2|exact Hca].
Defined.

(** X19. The binder of a binder behaves as the binder: a curried function
    made from a curried function gives, on any context, exactly the outcome
    of the inner one (with one more call frame), because [thisless] returns
    a normalized record as it is.  So entry points that are wrapped twice
    still hand the framework what singly wrapped ones would. *)
Theorem selfless_of_selfless (H : host) (fuel : nat) (g1 g2 : loc)
    (p c this1 this2 : jsval) (s : state) :
  code_of s (VObj g1) = Some (SelflessCurry p) ->
  code_of s (VObj g2) = Some (SelflessCurry (VObj g1)) ->
  call H (S (S fuel)) (VObj g2) this2 [c] s
  = call H (S fuel) (VObj g1) this1 [c] s.
Proof.
  intros Hg1 Hg2.
  rewrite (call_curry _ _ _ _ _ _ _ Hg2). unfold selflessCurry at 1.
  cbn [arg nth].
  rewrite (call_curry H fuel g1 p this1 [c] s Hg1).
  assert (Hinner : call H (S fuel) (VObj g1) VUndefined [c] s
                   = selflessCurry (call H fuel) p [c] s).
  { by rewrite (call_curry _ _ _ _ _ _ _ Hg1). }
  unfold bind at 1. rewrite Hinner.
  destruct (selflessCurry (call H fuel) p [c] s) as [r s'| | |] eqn:Hrun;
    try reflexivity.
  unfold selflessCurry in Hrun.
  apply bind_inv_Normal in Hrun as (_class & s0 & _ & Hthis).
  apply thisless_plain.
  apply thisless_inv in Hthis as [(Hplain & -> & ->) | (proto & s1 & _ & Hblank)].
  - done.
  - by apply (toBlankObj_result_plain _ _ _ _ Hblank).
Qed.

Lemma selfless_of_selfless_witness :
  exists g1 s1 g2 s2,
    selfless (call Example.user 1) [VObj 14] Example.start = Normal (VObj g1) s1
    /\ selfless (call Example.user 1) [VObj g1] s1 = Normal (VObj g2) s2
    /\ call Example.user 3 (VObj g2) VUndefined [VObj 15] s2
       = call Example.user 2 (VObj g1) VUndefined [VObj 15] s2.
Proof.
  eexists _, _, _, _.
  split; [vm_compute; reflexivity|].
  split; [vm_compute; reflexivity|].
  apply (selfless_of_selfless Example.user 1 _ _ (VObj 14));
    vm_compute; reflexivity.
Defined.
